(** * Financial metrics over a price table

    A shallow embedding of [src/utils/data_loader.py] ([DataLoader.get_returns])
    and [src/utils/metrics.py] ([MetricsCalculator]), together with the pandas
    and numpy operations these two files call.

    Numbers.  The code computes on IEEE doubles.  Here a double is an exact
    real number or one of the three special values [PInf], [NInf], [NaN];
    the arithmetic on finite values is exact (no rounding, no overflow, no
    signed zero), the arithmetic on special values follows IEEE 754.  Every
    equation proved below is therefore an equation of the exact formulas;
    on the machine it holds up to rounding. *)

From Stdlib Require Import Reals Lra Lia List ZArith Bool Sorted.
From stdpp Require Import gmap strings.
Import ListNotations.

Open Scope R_scope.

(** ** Doubles *)

Inductive float : Type :=
| Fin (x : R)
| PInf
| NInf
| NaN.

Definition isna (a : float) : bool :=
  match a with NaN => true | _ => false end.

Definition notna (a : float) : bool := negb (isna a).

Definition is_finite (a : float) : bool :=
  match a with Fin _ => true | _ => false end.

(** The infinity with the sign of [x]; [NaN] at zero (as in [0 * inf]). *)
Definition signed_inf (x : R) : float :=
  if Rlt_dec 0 x then PInf else if Rlt_dec x 0 then NInf else NaN.

Definition fopp (a : float) : float :=
  match a with
  | Fin x => Fin (- x)
  | PInf => NInf
  | NInf => PInf
  | NaN => NaN
  end.

Definition fadd (a b : float) : float :=
  match a, b with
  | NaN, _ | _, NaN => NaN
  | Fin x, Fin y => Fin (x + y)
  | PInf, NInf | NInf, PInf => NaN
  | PInf, _ | _, PInf => PInf
  | NInf, _ | _, NInf => NInf
  end.

Definition fsub (a b : float) : float := fadd a (fopp b).

Definition fmul (a b : float) : float :=
  match a, b with
  | NaN, _ | _, NaN => NaN
  | Fin x, Fin y => Fin (x * y)
  | Fin x, PInf | PInf, Fin x => signed_inf x
  | Fin x, NInf | NInf, Fin x => signed_inf (- x)
  | PInf, PInf | NInf, NInf => PInf
  | PInf, NInf | NInf, PInf => NInf
  end.

(** Division never raises on numpy doubles: [x / 0] is an infinity with the
    sign of [x], or [NaN] when [x] is zero too. *)
Definition fdiv (a b : float) : float :=
  match a, b with
  | NaN, _ | _, NaN => NaN
  | Fin x, Fin y => if Req_dec_T y 0 then signed_inf x else Fin (x / y)
  | Fin _, _ => Fin 0
  | PInf, Fin y => if Rlt_dec y 0 then NInf else PInf
  | NInf, Fin y => if Rlt_dec y 0 then PInf else NInf
  | _, _ => NaN
  end.

Definition fsqrt (a : float) : float :=
  match a with
  | Fin x => if Rlt_dec x 0 then NaN else Fin (sqrt x)
  | PInf => PInf
  | _ => NaN
  end.

(** [a < b] on doubles; false as soon as one side is [NaN]. *)
Definition flt (a b : float) : bool :=
  match a, b with
  | Fin x, Fin y => if Rlt_dec x y then true else false
  | Fin _, PInf | NInf, Fin _ | NInf, PInf => true
  | _, _ => false
  end.

(** ** Python exceptions *)

Inductive exn : Type :=
| KeyError (key : string)
| ValueError (msg : string).

Inductive result (A : Type) : Type :=
| Ok (a : A)
| Raise (e : exn).

Arguments Ok {A} a.
Arguments Raise {A} e.

Definition bind {A B : Type} (m : result A) (k : A -> result B) : result B :=
  match m with
  | Ok a => k a
  | Raise e => Raise e
  end.

Notation "'let*' x ':=' m 'in' k" := (bind m (fun x => k))
  (at level 10, x name, m at level 100, k at level 200).

Definition returns_value {A : Type} (m : result A) : Prop :=
  match m with Ok _ => True | Raise _ => False end.

(** ** numpy *)

Module np.

(** [ndarray.sum()] *)
Definition sum (a : list float) : float := fold_left fadd a (Fin 0).

(** [np.maximum] and [np.minimum] propagate [NaN]. *)
Definition maximum (a b : float) : float :=
  match a, b with
  | NaN, _ | _, NaN => NaN
  | _, _ => if flt a b then b else a
  end.

Definition minimum (a b : float) : float :=
  match a, b with
  | NaN, _ | _, NaN => NaN
  | _, _ => if flt b a then b else a
  end.

(** [ufunc.accumulate]: the running results of a binary operation. *)
Fixpoint accumulate_from (op : float -> float -> float) (acc : float)
    (a : list float) : list float :=
  match a with
  | [] => []
  | x :: rest => let acc' := op acc x in acc' :: accumulate_from op acc' rest
  end.

Definition accumulate (op : float -> float -> float) (a : list float)
    : list float :=
  match a with
  | [] => []
  | x :: rest => x :: accumulate_from op x rest
  end.

(** [ndarray.min()] of a non-empty array. *)
Definition amin (a : list float) : float :=
  match a with
  | [] => NaN
  | x :: rest => fold_left minimum rest x
  end.

(** [np.clip(x, lo, hi)] is [minimum(maximum(x, lo), hi)]. *)
Definition clip (x lo hi : float) : float := minimum (maximum x lo) hi.

(** [np.average(a)] without weights: the sum over the number of entries. *)
Definition average (a : list float) : float :=
  fdiv (sum a) (Fin (INR (length a))).

(** Entry [[i][j]] of [np.cov] for two centred rows: the dot product scaled
    by [1 / fact], with [fact = n - ddof] reset to [0] when it is not
    positive (numpy warns and goes on). *)
Definition cov_entry (xc yc : list float) : float :=
  let n := length xc in
  let fact := if (n <=? 1)%nat then 0 else INR n - 1 in
  fmul (sum (map (fun p => fmul (fst p) (snd p)) (combine xc yc)))
       (fdiv (Fin 1) (Fin fact)).

Definition center (a : list float) : list float :=
  let avg := average a in map (fun v => fsub v avg) a.

(** [np.cov(x, y)] with the default [ddof = 1], as the four entries of the
    2 x 2 matrix.  Stacking the two rows ([np.concatenate]) raises
    [ValueError] when their lengths differ (numpy's message, which also
    names the two sizes, is shortened here). *)
Definition cov (x y : list float)
    : result ((float * float) * (float * float)) :=
  if (length x =? length y)%nat then
    let xc := center x in
    let yc := center y in
    Ok ((cov_entry xc xc, cov_entry xc yc), (cov_entry yc xc, cov_entry yc yc))
  else
    Raise (ValueError "array dimensions must match exactly").

(** [np.corrcoef(x, y)[0, 1]]: the covariance divided by the two standard
    deviations taken from the diagonal, then clipped to [-1, 1]. *)
Definition corrcoef01 (x y : list float) : result float :=
  let* c := cov x y in
  let stddev0 := fsqrt (fst (fst c)) in
  let stddev1 := fsqrt (snd (snd c)) in
  Ok (clip (fdiv (fdiv (snd (fst c)) stddev0) stddev1) (Fin (-1)) (Fin 1)).

End np.

(** ** pandas *)

(** Row labels (dates) are integers, e.g. a day count. *)
Definition label : Type := Z.

(** A [pd.Series] of doubles: its rows in order, each with its label. *)
Definition Series : Type := list (label * float).

Module pd.

(** What [pct_change()] does with missing prices when no [fill_method] is
    given: pandas up to 2.x pads them forward first, pandas 3 leaves them. *)
Inductive fill_method : Type := pad | no_fill.

Definition index (s : Series) : list label := map fst s.
Definition values (s : Series) : list float := map snd s.

(** New values on the index of [s]. *)
Definition with_values (s : Series) (v : list float) : Series :=
  combine (index s) v.

(** A scalar operation applied to every row. *)
Definition smap (f : float -> float) (s : Series) : Series :=
  map (fun p => (fst p, f (snd p))) s.

(** A binary operation on two series of one and the same index (the only
    use the source makes of it): row by row. *)
Definition binop (op : float -> float -> float) (a b : Series) : Series :=
  map (fun p => (fst (fst p), op (snd (fst p)) (snd (snd p)))) (combine a b).

(** [s[mask]] for a row predicate. *)
Definition mask_rows (keep : float -> bool) (s : Series) : Series :=
  List.filter (fun p => keep (snd p)) s.

Definition dropna (s : Series) : Series := mask_rows notna s.

(** [ffill]: a missing value takes the last valid one before it. *)
Fixpoint ffill_from (last : float) (a : list float) : list float :=
  match a with
  | [] => []
  | x :: rest =>
      let v := if isna x then last else x in v :: ffill_from v rest
  end.

Definition ffill (a : list float) : list float := ffill_from NaN a.

(** [shift(1)]: every value moves one row down, the first row is missing. *)
Definition shift (a : list float) : list float :=
  match a with
  | [] => []
  | _ :: _ => NaN :: removelast a
  end.

(** [pct_change()]: [data / data.shift(1) - 1]. *)
Definition pct_change (fm : fill_method) (s : Series) : Series :=
  let data := match fm with pad => ffill (values s) | no_fill => values s end in
  with_values s
    (map (fun p => fsub (fdiv (fst p) (snd p)) (Fin 1))
         (combine data (shift data))).

Definition fill0 (v : float) : float := if isna v then Fin 0 else v.

Definition count (a : list float) : nat := length (List.filter notna a).

(** [nanops.nanmean] *)
Definition nanmean (a : list float) : float :=
  let c := count a in
  if (0 <? c)%nat then fdiv (np.sum (map fill0 a)) (Fin (INR c)) else NaN.

(** [nanops.nanvar] with [ddof = 1] *)
Definition nanvar (a : list float) : float :=
  let c := count a in
  if (c <=? 1)%nat then NaN
  else
    let avg := fdiv (np.sum (map fill0 a)) (Fin (INR c)) in
    let sqr :=
      map (fun v => if isna v then Fin 0
                    else fmul (fsub avg v) (fsub avg v)) a in
    fdiv (np.sum sqr) (Fin (INR c - 1)).

Definition nanstd (a : list float) : float := fsqrt (nanvar a).

(** [nanops.nanmin]: missing values count as [+inf]; the result is
    missing when no valid value is left. *)
Definition nanmin (a : list float) : float :=
  if (0 <? count a)%nat
  then np.amin (map (fun v => if isna v then PInf else v) a)
  else NaN.

(** [nanops.na_accum_func] with [skipna]: missing values are replaced by
    the neutral value [mask_a], accumulated over, and put back. *)
Definition na_accum_func (op : float -> float -> float) (mask_a : float)
    (a : list float) : list float :=
  let vals := map (fun v => if isna v then mask_a else v) a in
  map (fun p => if isna (fst p) then NaN else snd p)
      (combine a (np.accumulate op vals)).

Definition mean (s : Series) : float := nanmean (values s).
Definition var (s : Series) : float := nanvar (values s).
Definition std (s : Series) : float := nanstd (values s).
Definition min (s : Series) : float := nanmin (values s).

Definition cumprod (s : Series) : Series :=
  with_values s (na_accum_func fmul (Fin 1) (values s)).

Definition cummax (s : Series) : Series :=
  with_values s (na_accum_func np.maximum NInf (values s)).

(** [Series.align(other, join='inner')], as the pairs of values on common
    labels.  Equal indexes are paired row by row; otherwise every row of
    [a] meets the rows of [b] that carry its label. *)
Definition align_inner (a b : Series) : list (float * float) :=
  if decide (index a = index b) then combine (values a) (values b)
  else
    flat_map
      (fun p =>
         map (fun q => (snd p, snd q))
             (List.filter (fun q => Z.eqb (fst q) (fst p)) b))
      a.

(** [nanops.nancorr], Pearson: pairs with a missing side are dropped. *)
Definition nancorr (ab : list (float * float)) : result float :=
  let valid := List.filter (fun p => notna (fst p) && notna (snd p)) ab in
  if (length valid <? 1)%nat then Ok NaN
  else np.corrcoef01 (map fst valid) (map snd valid).

(** [Series.corr(other)] *)
Definition corr (a b : Series) : result float :=
  let both := align_inner a b in
  if (length both =? 0)%nat then Ok NaN else nancorr both.

(** A [pd.DataFrame]: the row labels and the named columns. *)
Record DataFrame : Type := {
  df_index : list label;
  df_columns : gmap string (list float)
}.

(** [df[name]] *)
Definition getitem (df : DataFrame) (name : string) : result Series :=
  match df_columns df !! name with
  | Some col => Ok (combine (df_index df) col)
  | None => Raise (KeyError name)
  end.

(** [name in df.columns] *)
Definition has_column (df : DataFrame) (name : string) : bool :=
  match df_columns df !! name with
  | Some _ => true
  | None => false
  end.

End pd.

(** ** src/utils/data_loader.py *)

Module DataLoader.

Definition get_returns (fm : pd.fill_method) (df : pd.DataFrame)
    : result Series :=
  if negb (pd.has_column df "Adj Close") then
    Raise (ValueError "DataFrame must contain 'Adj Close' column.")
  else
    let* adj := pd.getitem df "Adj Close" in
    let returns := pd.dropna (pd.pct_change fm adj) in
    Ok returns.

End DataLoader.

(** ** src/utils/metrics.py *)

Module MetricsCalculator.

Section Methods.

Variable fm : pd.fill_method.
Variable self : pd.DataFrame.

Definition calculate_sharpe_ratio (risk_free_rate : R) : result float :=
  let* adj := pd.getitem self "Adj Close" in
  let returns := pd.dropna (pd.pct_change fm adj) in
  let excess_returns :=
    pd.smap (fun v => fsub v (Fin (risk_free_rate / 252))) returns in
  let sharpe_ratio :=
    fdiv (fmul (Fin (sqrt 252)) (pd.mean excess_returns))
         (pd.std excess_returns) in
  Ok sharpe_ratio.

Definition calculate_sortino_ratio (risk_free_rate : R) : result float :=
  let* adj := pd.getitem self "Adj Close" in
  let returns := pd.dropna (pd.pct_change fm adj) in
  let excess_returns :=
    pd.smap (fun v => fsub v (Fin (risk_free_rate / 252))) returns in
  let downside_returns :=
    pd.mask_rows (fun v => flt v (Fin 0)) excess_returns in
  let sortino_ratio :=
    fdiv (fmul (Fin (sqrt 252)) (pd.mean excess_returns))
         (pd.std downside_returns) in
  Ok sortino_ratio.

Definition calculate_max_drawdown : result float :=
  let* adj := pd.getitem self "Adj Close" in
  let cumulative_returns :=
    pd.cumprod (pd.smap (fadd (Fin 1)) (pd.dropna (pd.pct_change fm adj))) in
  let peak := pd.cummax cumulative_returns in
  let drawdown :=
    pd.binop fdiv (pd.binop fsub cumulative_returns peak) peak in
  let max_drawdown := pd.min drawdown in
  Ok (fmul max_drawdown (Fin 100)).

Definition calculate_volatility : result float :=
  let* adj := pd.getitem self "Adj Close" in
  let returns := pd.dropna (pd.pct_change fm adj) in
  let volatility := fmul (pd.std returns) (Fin (sqrt 252)) in
  Ok (fmul volatility (Fin 100)).

Definition calculate_beta (benchmark_returns : Series) : result float :=
  let* adj := pd.getitem self "Adj Close" in
  let stock_returns := pd.dropna (pd.pct_change fm adj) in
  let* c := np.cov (pd.values stock_returns) (pd.values benchmark_returns) in
  let covariance := snd (fst c) in
  let benchmark_variance := pd.var benchmark_returns in
  let beta := fdiv covariance benchmark_variance in
  Ok beta.

Definition calculate_alpha (benchmark_returns : Series)
    (risk_free_rate : R) : result float :=
  let* adj := pd.getitem self "Adj Close" in
  let stock_returns := pd.dropna (pd.pct_change fm adj) in
  let excess_stock_returns :=
    pd.smap (fun v => fsub v (Fin (risk_free_rate / 252))) stock_returns in
  let excess_benchmark_returns :=
    pd.smap (fun v => fsub v (Fin (risk_free_rate / 252)))
            benchmark_returns in
  let* beta := calculate_beta benchmark_returns in
  let alpha :=
    fsub (pd.mean excess_stock_returns)
         (fmul beta (pd.mean excess_benchmark_returns)) in
  Ok (fmul alpha (Fin 252)).

Definition calculate_correlation (benchmark_returns : Series)
    : result float :=
  let* adj := pd.getitem self "Adj Close" in
  let stock_returns := pd.dropna (pd.pct_change fm adj) in
  let* correlation := pd.corr stock_returns benchmark_returns in
  Ok correlation.

(** The returned [dict], as its items in insertion order. *)
Definition calculate_metrics (benchmark_returns : Series)
    (risk_free_rate : R) : result (list (string * float)) :=
  let* sharpe := calculate_sharpe_ratio risk_free_rate in
  let* sortino := calculate_sortino_ratio risk_free_rate in
  let* max_drawdown := calculate_max_drawdown in
  let* volatility := calculate_volatility in
  let* beta := calculate_beta benchmark_returns in
  let* alpha := calculate_alpha benchmark_returns risk_free_rate in
  let* correlation := calculate_correlation benchmark_returns in
  let metrics :=
    [ ("Sharpe Ratio", sharpe);
      ("Sortino Ratio", sortino);
      ("Max Drawdown", max_drawdown);
      ("Volatility", volatility);
      ("Beta", beta);
      ("Alpha", alpha);
      ("Correlation", correlation) ] in
  Ok metrics.

End Methods.

End MetricsCalculator.


Import MetricsCalculator.

(** * Vocabulary of the properties *)

(** [df['Adj Close'].pct_change().dropna()], the first line of every metric. *)
Definition returns_of (fm : pd.fill_method) (adj : Series) : Series :=
  pd.dropna (pd.pct_change fm adj).

(** The return series of a table whose 'Adj Close' column is [col]. *)
Definition column_returns (fm : pd.fill_method) (df : pd.DataFrame)
    (col : list float) : Series :=
  returns_of fm (combine (pd.df_index df) col).

(** [returns - risk_free_rate / 252] *)
Definition excess_of (rf : R) (s : Series) : Series :=
  pd.smap (fun v => fsub v (Fin (rf / 252))) s.

(** The drawdown series [calculate_max_drawdown] takes the minimum of. *)
Definition drawdown_series (returns : Series) : Series :=
  let cumulative_returns := pd.cumprod (pd.smap (fadd (Fin 1)) returns) in
  let peak := pd.cummax cumulative_returns in
  pd.binop fdiv (pd.binop fsub cumulative_returns peak) peak.

(** The column name every entry point reads. *)
Definition adj_close : string := "Adj Close".

(** The keys of the aggregate result, in the order the source lists them. *)
Definition metric_keys : list string :=
  [ "Sharpe Ratio"; "Sortino Ratio"; "Max Drawdown"; "Volatility";
    "Beta"; "Alpha"; "Correlation" ].

(** The exact returns of a list of finite prices: each price over the one
    before it, minus one. *)
Fixpoint ratios_from (prev : R) (ps : list R) : list R :=
  match ps with
  | [] => []
  | p :: rest => (p / prev - 1) :: ratios_from p rest
  end.

Definition exact_returns (ps : list R) : list R :=
  match ps with
  | [] => []
  | p0 :: rest => ratios_from p0 rest
  end.

(** A table of [prices] under the 'Adj Close' name, one per label. *)
Definition price_table (idx : list label) (prices : list float)
    : pd.DataFrame :=
  {| pd.df_index := idx; pd.df_columns := {[ adj_close := prices ]} |}.

(** ** The statistics on exact numbers

    The textbook formulas the pandas and numpy routines are compared with. *)

Definition Rsum (xs : list R) : R := fold_left Rplus xs 0.

Definition Rmean (xs : list R) : R := Rsum xs / INR (length xs).

(** Sum of the products of the deviations from the two means. *)
Definition co_dev (xs ys : list R) : R :=
  Rsum (map (fun p => (fst p - Rmean xs) * (snd p - Rmean ys))
            (combine xs ys)).

(** Sample variance and covariance (divisor n - 1). *)
Definition sample_var (xs : list R) : R :=
  co_dev xs xs / (INR (length xs) - 1).

Definition sample_cov (xs ys : list R) : R :=
  co_dev xs ys / (INR (length xs) - 1).

(** Pearson's correlation coefficient. *)
Definition pearson (xs ys : list R) : R :=
  co_dev xs ys / (sqrt (co_dev xs xs) * sqrt (co_dev ys ys)).

(** Running results of a binary operation, on exact numbers. *)
Fixpoint Racc (op : R -> R -> R) (acc : R) (xs : list R) : list R :=
  match xs with
  | [] => []
  | x :: rest => op acc x :: Racc op (op acc x) rest
  end.

Definition Raccumulate (op : R -> R -> R) (xs : list R) : list R :=
  match xs with
  | [] => []
  | x :: rest => x :: Racc op x rest
  end.

(** The drawdown series of a list of returns: the running product of
    [1 + r] against its running maximum. *)
Definition exact_drawdowns (rs : list R) : list R :=
  let cumulative := Raccumulate Rmult (map (fun r => 1 + r) rs) in
  let peak := Raccumulate Rmax cumulative in
  map (fun p => (fst p - snd p) / snd p) (combine cumulative peak).

(** The first testable property in the specification's words: a table
    of N >= 2 rows with the column yields N - 1 returns. *)
Definition returns_length_claim (fm : pd.fill_method) (df : pd.DataFrame)
    : Prop :=
  forall col,
    pd.df_columns df !! adj_close = Some col ->
    length (pd.df_index df) = length col ->
    (2 <= length col)%nat ->
    exists r, DataLoader.get_returns fm df = Ok r
              /\ length r = (length col - 1)%nat.


(** The correlation property for benchmarks that merely have the length of
    the return series: the result is a number between -1 and 1. *)
Definition correlation_claim (fm : pd.fill_method) (df : pd.DataFrame)
    (b : Series) : Prop :=
  forall col vx vy,
    pd.df_columns df !! adj_close = Some col ->
    length b = length (column_returns fm df col) ->
    pd.var (column_returns fm df col) = Fin vx ->
    vx <> 0 ->
    pd.var b = Fin vy ->
    vy <> 0 ->
    exists rho, calculate_correlation fm df b = Ok (Fin rho)
                /\ -1 <= rho <= 1.

(** ** Example tables *)

(** A table with an 'Open' column only. *)
Definition df_no_adj_close : pd.DataFrame :=
  {| pd.df_index := [1; 2]%Z;
     pd.df_columns := {[ "Open" := [Fin 100; Fin 110] ]} |}.

(** Three rows, the first price missing. *)
Definition df_leading_nan : pd.DataFrame :=
  price_table [1; 2; 3]%Z [NaN; Fin 1; Fin 2].

(** A single row. *)
Definition df_one_row : pd.DataFrame := price_table [1]%Z [Fin 100].

(** The four prices of the specification's scenario. *)
Definition scenario_prices : list R := [100; 110; 121; 1089 / 10].

Definition df_scenario : pd.DataFrame :=
  price_table [1; 2; 3; 4]%Z (map Fin scenario_prices).


(** A price that does not move: every return is zero. *)
Definition flat_prices : list R := [100; 100; 100].

Definition df_flat : pd.DataFrame :=
  price_table [1; 2; 3]%Z (map Fin flat_prices).

(** Benchmark returns for the three return dates of the scenario, and the
    same returns filed under three other dates. *)
Definition benchmark_values : list R := [1 / 10; 2 / 10; 3 / 10].

Definition aligned_benchmark : Series :=
  combine [2; 3; 4]%Z (map Fin benchmark_values).

Definition shifted_benchmark : Series :=
  combine [12; 13; 14]%Z (map Fin benchmark_values).


(** ** Further example tables *)

(** Prices that halve and then recover a little. *)
Definition dip_prices : list R := [100; 50; 60].

Definition df_dip : pd.DataFrame :=
  price_table [1; 2; 3]%Z (map Fin dip_prices).

(** Two rows only: a single return. *)
Definition df_two_rows : pd.DataFrame :=
  price_table [1; 2]%Z [Fin 100; Fin 110].

(** Prices falling by a tenth per day. *)
Definition falling_prices : list R := [100; 90; 81].

Definition df_falling : pd.DataFrame :=
  price_table [1; 2; 3]%Z (map Fin falling_prices).

(** ** Vocabulary of the further properties *)

(** Two tables, each with its fill policy, on which every entry point of
    the two modules gives the same result. *)
Definition same_results (fm fm' : pd.fill_method) (df df' : pd.DataFrame)
    : Prop :=
  DataLoader.get_returns fm df = DataLoader.get_returns fm' df'
  /\ forall (b : Series) (rf : R),
       calculate_sharpe_ratio fm df rf = calculate_sharpe_ratio fm' df' rf
       /\ calculate_sortino_ratio fm df rf
          = calculate_sortino_ratio fm' df' rf
       /\ calculate_max_drawdown fm df = calculate_max_drawdown fm' df'
       /\ calculate_volatility fm df = calculate_volatility fm' df'
       /\ calculate_beta fm df b = calculate_beta fm' df' b
       /\ calculate_alpha fm df b rf = calculate_alpha fm' df' b rf
       /\ calculate_correlation fm df b = calculate_correlation fm' df' b
       /\ calculate_metrics fm df b rf = calculate_metrics fm' df' b rf.

(** ** matplotlib and seaborn

    The plotting functions draw through the global pyplot state.  The
    model records every drawing call with its arguments, in order; what
    the libraries paint from them is outside the model, and a drawing call
    itself is taken not to raise. *)

Module plt.

Inductive call : Type :=
| figure (width height : Z)
| plot (x : list label) (y : Series) (label : string)
| histplot (data : Series) (bins : Z) (kde : bool)
| boxplot (x : Series)
| scatter (x y : Series) (alpha : R)
| title (s : string)
| xlabel (s : string)
| ylabel (s : string)
| legend
| grid
| show.

End plt.

(** A computation that may raise and that appends to the log of drawing
    calls.  A raised exception leaves the calls made so far in place. *)
Definition Plot (A : Type) : Type :=
  list plt.call -> result A * list plt.call.

Definition pure {A : Type} (a : A) : Plot A := fun log => (Ok a, log).

Definition lift {A : Type} (r : result A) : Plot A := fun log => (r, log).

Definition draw (c : plt.call) : Plot unit :=
  fun log => (Ok tt, log ++ [c]).

Definition then_ {A B : Type} (m : Plot A) (k : A -> Plot B) : Plot B :=
  fun log =>
    match m log with
    | (Ok a, log') => k a log'
    | (Raise e, log') => (Raise e, log')
    end.

Notation "'do' x '<-' m ';' k" := (then_ m (fun x => k))
  (at level 10, x name, m at level 100, k at level 200).

Notation "m ';;' k" := (then_ m (fun _ => k))
  (at level 100, k at level 200, right associativity).

(** [for x in xs: body(x)] *)
Fixpoint for_each {A : Type} (xs : list A) (body : A -> Plot unit)
    : Plot unit :=
  match xs with
  | [] => pure tt
  | x :: rest => body x ;; for_each rest body
  end.

(** ** src/utils/plot_utils.py *)

Module PlotUtils.

Section Methods.

Variable fm : pd.fill_method.
Variable self : pd.DataFrame.

Definition plot_price (title xlabel ylabel : string) : Plot unit :=
  draw (plt.figure 14 7) ;;
  do adj <- lift (pd.getitem self "Adj Close") ;
  draw (plt.plot (pd.df_index self) adj "Adjusted Close Price") ;;
  draw (plt.title title) ;;
  draw (plt.xlabel xlabel) ;;
  draw (plt.ylabel ylabel) ;;
  draw plt.legend ;;
  draw plt.grid ;;
  draw plt.show.

Definition plot_returns (title xlabel ylabel : string) : Plot unit :=
  do adj <- lift (pd.getitem self "Adj Close") ;
  let returns := pd.dropna (pd.pct_change fm adj) in
  draw (plt.figure 14 7) ;;
  draw (plt.histplot returns 50 true) ;;
  draw (plt.title title) ;;
  draw (plt.xlabel xlabel) ;;
  draw (plt.ylabel ylabel) ;;
  draw plt.grid ;;
  draw plt.show.

Definition plot_histogram (column title xlabel ylabel : string)
    : Plot unit :=
  if negb (pd.has_column self column) then
    lift (Raise (ValueError
                   (String.append "Column '"
                      (String.append column "' not found in DataFrame."))))
  else
    draw (plt.figure 14 7) ;;
    do data <- lift (pd.getitem self column) ;
    draw (plt.histplot data 50 true) ;;
    draw (plt.title title) ;;
    draw (plt.xlabel xlabel) ;;
    draw (plt.ylabel ylabel) ;;
    draw plt.grid ;;
    draw plt.show.

Definition plot_boxplot (column title xlabel ylabel : string)
    : Plot unit :=
  if negb (pd.has_column self column) then
    lift (Raise (ValueError
                   (String.append "Column '"
                      (String.append column "' not found in DataFrame."))))
  else
    draw (plt.figure 14 7) ;;
    do data <- lift (pd.getitem self column) ;
    draw (plt.boxplot data) ;;
    draw (plt.title title) ;;
    draw (plt.xlabel xlabel) ;;
    draw (plt.ylabel ylabel) ;;
    draw plt.grid ;;
    draw plt.show.

Definition plot_time_series (columns : list string)
    (title xlabel ylabel : string) : Plot unit :=
  if negb (forallb (pd.has_column self) columns) then
    lift (Raise (ValueError "One or more columns not found in DataFrame."))
  else
    draw (plt.figure 14 7) ;;
    for_each columns
      (fun col =>
         do data <- lift (pd.getitem self col) ;
         draw (plt.plot (pd.df_index self) data col)) ;;
    draw (plt.title title) ;;
    draw (plt.xlabel xlabel) ;;
    draw (plt.ylabel ylabel) ;;
    draw plt.legend ;;
    draw plt.grid ;;
    draw plt.show.

Definition plot_scatter (x_column y_column title xlabel ylabel : string)
    : Plot unit :=
  if negb (pd.has_column self x_column)
     || negb (pd.has_column self y_column) then
    lift (Raise (ValueError "One or both columns not found in DataFrame."))
  else
    draw (plt.figure 14 7) ;;
    do x <- lift (pd.getitem self x_column) ;
    do y <- lift (pd.getitem self y_column) ;
    draw (plt.scatter x y (1 / 2)) ;;
    draw (plt.title title) ;;
    draw (plt.xlabel xlabel) ;;
    draw (plt.ylabel ylabel) ;;
    draw plt.grid ;;
    draw plt.show.

End Methods.

End PlotUtils.

(** The series [df[name]] of a column that is there (empty otherwise). *)
Definition column_series (df : pd.DataFrame) (name : string) : Series :=
  match pd.df_columns df !! name with
  | Some col => combine (pd.df_index df) col
  | None => []
  end.

(** What every plotting function draws after its data: the three texts,
    with or without a legend, the grid, and the window. *)
Definition decorations (with_legend : bool) (title xlabel ylabel : string)
    : list plt.call :=
  [plt.title title; plt.xlabel xlabel; plt.ylabel ylabel]
  ++ (if with_legend then [plt.legend] else [])
  ++ [plt.grid; plt.show].

(** A table with an opening and an adjusted closing price. *)
Definition df_open_close : pd.DataFrame :=
  {| pd.df_index := [1; 2]%Z;
     pd.df_columns :=
       <[ "Open" := [Fin 99; Fin 108] ]>
         {[ adj_close := [Fin 100; Fin 110] ]} |}.

Import PlotUtils.
(** * Properties *)

(** ** Missing column *)

Lemma getitem_missing (df : pd.DataFrame) (name : string) :
  pd.df_columns df !! name = None ->
  pd.getitem df name = Raise (KeyError name).
Proof. intros H. unfold pd.getitem. rewrite H. reflexivity. Qed.

Lemma getitem_present (df : pd.DataFrame) (name : string) (col : list float) :
  pd.df_columns df !! name = Some col ->
  pd.getitem df name = Ok (combine (pd.df_index df) col).
Proof. intros H. unfold pd.getitem. rewrite H. reflexivity. Qed.

Lemma has_column_missing (df : pd.DataFrame) (name : string) :
  pd.df_columns df !! name = None -> pd.has_column df name = false.
Proof. intros H. unfold pd.has_column. rewrite H. reflexivity. Qed.

(** With the column present each metric is its formula on the return
    series of that column. *)
Section ColumnPresent.

Variable fm : pd.fill_method.
Variable df : pd.DataFrame.
Variable col : list float.
Hypothesis Hcol : pd.df_columns df !! adj_close = Some col.

Lemma getitem_adj_close :
  pd.getitem df "Adj Close" = Ok (combine (pd.df_index df) col).
Proof. exact (getitem_present df adj_close col Hcol). Qed.

Lemma sharpe_formula (rf : R) :
  calculate_sharpe_ratio fm df rf
  = Ok (fdiv
          (fmul (Fin (sqrt 252))
                (pd.mean (excess_of rf (column_returns fm df col))))
          (pd.std (excess_of rf (column_returns fm df col)))).
Proof.
  unfold calculate_sharpe_ratio.
  rewrite getitem_adj_close. reflexivity.
Qed.

Lemma sortino_formula (rf : R) :
  calculate_sortino_ratio fm df rf
  = Ok (fdiv
          (fmul (Fin (sqrt 252))
                (pd.mean (excess_of rf (column_returns fm df col))))
          (pd.std (pd.mask_rows (fun v => flt v (Fin 0))
                                (excess_of rf (column_returns fm df col))))).
Proof.
  unfold calculate_sortino_ratio.
  rewrite getitem_adj_close. reflexivity.
Qed.

Lemma max_drawdown_formula :
  calculate_max_drawdown fm df
  = Ok (fmul (pd.min (drawdown_series (column_returns fm df col)))
             (Fin 100)).
Proof.
  unfold calculate_max_drawdown.
  rewrite getitem_adj_close. reflexivity.
Qed.

Lemma volatility_formula :
  calculate_volatility fm df
  = Ok (fmul (fmul (pd.std (column_returns fm df col)) (Fin (sqrt 252)))
             (Fin 100)).
Proof.
  unfold calculate_volatility.
  rewrite getitem_adj_close. reflexivity.
Qed.

Lemma beta_formula (b : Series) :
  calculate_beta fm df b
  = let* c := np.cov (pd.values (column_returns fm df col)) (pd.values b) in
    Ok (fdiv (snd (fst c)) (pd.var b)).
Proof.
  unfold calculate_beta.
  rewrite getitem_adj_close. reflexivity.
Qed.

Lemma alpha_formula (b : Series) (rf : R) :
  calculate_alpha fm df b rf
  = let* beta := calculate_beta fm df b in
    Ok (fmul (fsub (pd.mean (excess_of rf (column_returns fm df col)))
                   (fmul beta (pd.mean (excess_of rf b))))
             (Fin 252)).
Proof.
  unfold calculate_alpha.
  rewrite getitem_adj_close. reflexivity.
Qed.

Lemma correlation_formula (b : Series) :
  calculate_correlation fm df b
  = let* correlation := pd.corr (column_returns fm df col) b in
    Ok correlation.
Proof.
  unfold calculate_correlation.
  rewrite getitem_adj_close. reflexivity.
Qed.

End ColumnPresent.

(** C2.  On a table without the 'Adj Close' column every entry point raises
    an input error, whatever the benchmark and the risk-free rate are:
    [get_returns] its own [ValueError], the seven metrics and the aggregate
    the [KeyError] of the column lookup, which is their first step. *)
Theorem missing_column_raises
    (fm : pd.fill_method) (df : pd.DataFrame)
    (Hmissing : pd.df_columns df !! adj_close = None) :
  DataLoader.get_returns fm df
    = Raise (ValueError "DataFrame must contain 'Adj Close' column.")
  /\ (forall rf, calculate_sharpe_ratio fm df rf = Raise (KeyError adj_close))
  /\ (forall rf, calculate_sortino_ratio fm df rf = Raise (KeyError adj_close))
  /\ calculate_max_drawdown fm df = Raise (KeyError adj_close)
  /\ calculate_volatility fm df = Raise (KeyError adj_close)
  /\ (forall b, calculate_beta fm df b = Raise (KeyError adj_close))
  /\ (forall b rf, calculate_alpha fm df b rf = Raise (KeyError adj_close))
  /\ (forall b, calculate_correlation fm df b = Raise (KeyError adj_close))
  /\ (forall b rf, calculate_metrics fm df b rf = Raise (KeyError adj_close)).
Proof.
  pose proof (getitem_missing df adj_close Hmissing) as Hget.
  pose proof (has_column_missing df adj_close Hmissing) as Hcol.
  unfold adj_close in *.
  repeat split; intros;
    unfold DataLoader.get_returns, calculate_metrics, calculate_sharpe_ratio,
      calculate_sortino_ratio, calculate_max_drawdown, calculate_volatility,
      calculate_beta, calculate_alpha, calculate_correlation;
    rewrite ?Hcol, ?Hget; reflexivity.
Qed.

Lemma missing_column_raises_witness :
  pd.df_columns df_no_adj_close !! adj_close = None
  /\ calculate_max_drawdown pd.no_fill df_no_adj_close
     = Raise (KeyError adj_close).
Proof.
  split.
  - reflexivity.
  - apply (missing_column_raises pd.no_fill df_no_adj_close). reflexivity.
Defined.

(** ** The aggregate call *)

(** C3.  The aggregate call returns exactly when the seven metric functions
    return on the same table, benchmark and risk-free rate; its result then
    lists the seven keys in the fixed order, each with the value of the
    metric function of that name. *)
Theorem calculate_metrics_refines
    (fm : pd.fill_method) (df : pd.DataFrame) (b : Series) (rf : R)
    (m : list (string * float)) :
  calculate_metrics fm df b rf = Ok m
  <->
  exists v1 v2 v3 v4 v5 v6 v7,
    calculate_sharpe_ratio fm df rf = Ok v1
    /\ calculate_sortino_ratio fm df rf = Ok v2
    /\ calculate_max_drawdown fm df = Ok v3
    /\ calculate_volatility fm df = Ok v4
    /\ calculate_beta fm df b = Ok v5
    /\ calculate_alpha fm df b rf = Ok v6
    /\ calculate_correlation fm df b = Ok v7
    /\ map fst m = metric_keys
    /\ map snd m = [v1; v2; v3; v4; v5; v6; v7].
Proof.
  unfold calculate_metrics. split.
  - intros H.
    destruct (calculate_sharpe_ratio fm df rf) as [v1|]; [|discriminate].
    destruct (calculate_sortino_ratio fm df rf) as [v2|]; [|discriminate].
    destruct (calculate_max_drawdown fm df) as [v3|]; [|discriminate].
    destruct (calculate_volatility fm df) as [v4|]; [|discriminate].
    destruct (calculate_beta fm df b) as [v5|]; [|discriminate].
    destruct (calculate_alpha fm df b rf) as [v6|]; [|discriminate].
    destruct (calculate_correlation fm df b) as [v7|]; [|discriminate].
    simpl in H. injection H as <-.
    exists v1, v2, v3, v4, v5, v6, v7. repeat split; reflexivity.
  - intros (v1 & v2 & v3 & v4 & v5 & v6 & v7 & -> & -> & -> & -> & -> & ->
            & -> & Hk & Hv).
    simpl. f_equal.
    unfold metric_keys in Hk.
    repeat (destruct m as [|[? ?] m]; simpl in Hk, Hv; try discriminate).
    injection Hk as -> -> -> -> -> -> ->.
    injection Hv as -> -> -> -> -> -> ->.
    reflexivity.
Qed.

(** ** Short tables *)

Lemma returns_of_short (fm : pd.fill_method) (s : Series) :
  (length s < 2)%nat -> returns_of fm s = [].
Proof.
  intros Hlen. destruct s as [|[i x] [|q s]]; simpl in Hlen; try lia.
  - destruct fm; reflexivity.
  - destruct fm, x; reflexivity.
Qed.

Lemma combine_short {A B : Type} (l : list A) (l' : list B) :
  (length (combine l l') <= length l)%nat.
Proof.
  revert l'. induction l as [|a l IH]; intros [|b l']; simpl; try lia.
  specialize (IH l'). lia.
Qed.

(** C10.  On a table that has the 'Adj Close' column but fewer than two rows
    the return series is empty, and the Sharpe ratio, the volatility and the
    maximum drawdown are returned, not raised, with the value NaN. *)
Theorem short_table_gives_nan
    (fm : pd.fill_method) (df : pd.DataFrame) (col : list float)
    (Hcol : pd.df_columns df !! adj_close = Some col)
    (Hrows : (length (pd.df_index df) < 2)%nat) :
  (forall rf, calculate_sharpe_ratio fm df rf = Ok NaN)
  /\ calculate_volatility fm df = Ok NaN
  /\ calculate_max_drawdown fm df = Ok NaN.
Proof.
  assert (Hempty : column_returns fm df col = []).
  { apply returns_of_short.
    pose proof (combine_short (pd.df_index df) col). lia. }
  split; [|split].
  - intros rf. rewrite (sharpe_formula fm df col Hcol), Hempty. reflexivity.
  - rewrite (volatility_formula fm df col Hcol), Hempty. reflexivity.
  - rewrite (max_drawdown_formula fm df col Hcol), Hempty. reflexivity.
Qed.

Lemma short_table_gives_nan_witness :
  pd.df_columns df_one_row !! adj_close = Some [Fin 100]
  /\ (length (pd.df_index df_one_row) < 2)%nat
  /\ calculate_volatility pd.pad df_one_row = Ok NaN.
Proof.
  split; [reflexivity|]. split; [simpl; lia|].
  apply (short_table_gives_nan pd.pad df_one_row [Fin 100]).
  - reflexivity.
  - simpl. lia.
Defined.

(** ** Returns of finite, non-zero prices *)

Lemma values_combine (idx : list label) (v : list float) :
  length idx = length v -> pd.values (combine idx v) = v.
Proof.
  unfold pd.values. revert v.
  induction idx as [|i idx IH]; intros [|x v] Hlen; simpl in *;
    try discriminate; try reflexivity.
  f_equal. apply IH. lia.
Qed.

Lemma index_combine (idx : list label) (v : list float) :
  length idx = length v -> pd.index (combine idx v) = idx.
Proof.
  unfold pd.index. revert v.
  induction idx as [|i idx IH]; intros [|x v] Hlen; simpl in *;
    try discriminate; try reflexivity.
  f_equal. apply IH. lia.
Qed.

Lemma ffill_from_finite (last : float) (ps : list R) :
  pd.ffill_from last (map Fin ps) = map Fin ps.
Proof.
  revert last. induction ps as [|p ps IH]; intros last; simpl.
  - reflexivity.
  - f_equal. apply IH.
Qed.

Lemma combine_removelast {A : Type} (x : A) (l : list A) :
  combine l (removelast (x :: l)) = combine l (x :: l).
Proof.
  revert x. induction l as [|y l IH]; intros x.
  - reflexivity.
  - change (removelast (x :: y :: l)) with (x :: removelast (y :: l)).
    simpl combine. f_equal. apply IH.
Qed.

Lemma fdiv_finite (x y : R) : y <> 0 -> fdiv (Fin x) (Fin y) = Fin (x / y).
Proof.
  intros Hy. simpl. destruct (Req_dec_T y 0) as [E|_]; [contradiction|].
  reflexivity.
Qed.

Lemma pct_pairs_finite (x : R) (ps : list R) :
  Forall (fun p => p <> 0) (x :: ps) ->
  map (fun p => fsub (fdiv (fst p) (snd p)) (Fin 1))
      (combine (map Fin ps) (map Fin (x :: ps)))
  = map Fin (ratios_from x ps).
Proof.
  revert x. induction ps as [|p ps IH]; intros x Hnz.
  - reflexivity.
  - inversion Hnz as [|? ? Hx Hrest]; subst.
    cbn [map combine ratios_from fst snd].
    rewrite (fdiv_finite p x Hx). f_equal.
    apply (IH p Hrest).
Qed.

Lemma pct_change_finite (fm : pd.fill_method) (idx : list label) (p0 : R)
    (ps : list R) :
  length idx = length (p0 :: ps) ->
  Forall (fun p => p <> 0) (p0 :: ps) ->
  pd.pct_change fm (combine idx (map Fin (p0 :: ps)))
  = combine idx (NaN :: map Fin (ratios_from p0 ps)).
Proof.
  intros Hlen Hnz. unfold pd.pct_change, pd.with_values.
  rewrite index_combine, values_combine by (rewrite length_map; exact Hlen).
  assert (Hdata : match fm with
                  | pd.pad => pd.ffill (map Fin (p0 :: ps))
                  | pd.no_fill => map Fin (p0 :: ps)
                  end = map Fin (p0 :: ps)).
  { destruct fm; [apply ffill_from_finite | reflexivity]. }
  rewrite Hdata. f_equal.
  change (map Fin (p0 :: ps)) with (Fin p0 :: map Fin ps).
  unfold pd.shift. cbn [combine map fst snd]. f_equal.
  rewrite (combine_removelast (Fin p0) (map Fin ps)).
  apply (pct_pairs_finite p0 ps Hnz).
Qed.

Lemma dropna_finite (idx : list label) (rs : list R) :
  pd.dropna (combine idx (map Fin rs)) = combine idx (map Fin rs).
Proof.
  unfold pd.dropna, pd.mask_rows. revert rs.
  induction idx as [|i idx IH]; intros [|r rs]; simpl; try reflexivity.
  f_equal. apply IH.
Qed.

Lemma returns_of_finite (fm : pd.fill_method) (idx : list label)
    (ps : list R) :
  length idx = length ps ->
  Forall (fun p => p <> 0) ps ->
  returns_of fm (combine idx (map Fin ps))
  = combine (tl idx) (map Fin (exact_returns ps)).
Proof.
  intros Hlen Hnz. destruct ps as [|p0 ps].
  - destruct idx; [|discriminate]. destruct fm; reflexivity.
  - unfold returns_of. rewrite (pct_change_finite fm idx p0 ps Hlen Hnz).
    destruct idx as [|i idx]; [discriminate|].
    simpl combine. unfold pd.dropna, pd.mask_rows. simpl List.filter.
    apply dropna_finite.
Qed.

Lemma scenario_returns :
  column_returns pd.no_fill df_scenario (map Fin scenario_prices)
  = combine [2; 3; 4]%Z (map Fin (exact_returns scenario_prices)).
Proof.
  unfold column_returns.
  change (pd.df_index df_scenario) with [1; 2; 3; 4]%Z.
  rewrite (returns_of_finite pd.no_fill [1; 2; 3; 4]%Z scenario_prices)
    by (try reflexivity; unfold scenario_prices; repeat constructor; lra).
  reflexivity.
Qed.

Lemma flat_returns :
  column_returns pd.no_fill df_flat (map Fin flat_prices)
  = combine [2; 3]%Z (map Fin (exact_returns flat_prices)).
Proof.
  unfold column_returns.
  change (pd.df_index df_flat) with [1; 2; 3]%Z.
  rewrite (returns_of_finite pd.no_fill [1; 2; 3]%Z flat_prices)
    by (try reflexivity; unfold flat_prices; repeat constructor; lra).
  reflexivity.
Qed.

Lemma length_ratios_from (x : R) (ps : list R) :
  length (ratios_from x ps) = length ps.
Proof.
  revert x. induction ps as [|p ps IH]; intros x; simpl; [reflexivity|].
  f_equal. apply IH.
Qed.

Lemma nth_ratios_from (x : R) (ps : list R) (i : nat) :
  (i < length ps)%nat ->
  nth i (ratios_from x ps) 0 = nth i ps 0 / nth i (x :: ps) 0 - 1.
Proof.
  revert x i. induction ps as [|p ps IH]; intros x i Hi; simpl in Hi.
  - lia.
  - destruct i as [|i]; [reflexivity|].
    simpl ratios_from. simpl nth at 1 2.
    rewrite IH by lia. reflexivity.
Qed.

Lemma nth_error_combine {A B : Type} (l : list A) (l' : list B) (i : nat)
    (a : A) (b : B) :
  length l = length l' -> (i < length l)%nat ->
  nth_error (combine l l') i = Some (nth i l a, nth i l' b).
Proof.
  revert l' i. induction l as [|x l IH]; intros [|y l'] i Hlen Hi;
    simpl in *; try lia.
  destruct i as [|i]; [reflexivity|]. simpl. apply IH; lia.
Qed.

Lemma leading_nan_returns_eval (fm : pd.fill_method) :
  DataLoader.get_returns fm df_leading_nan = Ok [(3%Z, Fin (2 / 1 - 1))].
Proof.
  unfold DataLoader.get_returns.
  change (pd.has_column df_leading_nan "Adj Close") with true.
  change (pd.getitem df_leading_nan "Adj Close")
    with (Ok [(1%Z, NaN); (2%Z, Fin 1); (3%Z, Fin 2)]).
  cbn [negb bind]. f_equal.
  assert (H21 : fdiv (Fin 2) (Fin 1) = Fin (2 / 1)) by (apply fdiv_finite; lra).
  destruct fm; unfold pd.pct_change, pd.with_values, pd.dropna, pd.mask_rows;
    cbn [pd.values pd.index pd.ffill pd.ffill_from pd.shift removelast map
         combine fst snd isna];
    rewrite H21; reflexivity.
Qed.

(** C1, as amended.  For a table of N >= 2 rows whose 'Adj Close' prices are
    all finite and non-zero, [get_returns] returns N - 1 rows; row i - 1
    carries the label of price row i and the value
    [price[i] / price[i-1] - 1]. *)
Theorem get_returns_finite_prices
    (fm : pd.fill_method) (df : pd.DataFrame) (ps : list R)
    (Hcol : pd.df_columns df !! adj_close = Some (map Fin ps))
    (Hlen : length (pd.df_index df) = length ps)
    (Hrows : (2 <= length ps)%nat)
    (Hnz : Forall (fun p => p <> 0) ps) :
  exists r,
    DataLoader.get_returns fm df = Ok r
    /\ length r = (length ps - 1)%nat
    /\ forall i, (1 <= i < length ps)%nat ->
         nth_error r (i - 1)
         = Some (nth i (pd.df_index df) 0%Z,
                 Fin (nth i ps 0 / nth (i - 1) ps 0 - 1)).
Proof.
  pose proof (returns_of_finite fm (pd.df_index df) ps Hlen Hnz) as Hret.
  exists (combine (tl (pd.df_index df)) (map Fin (exact_returns ps))).
  destruct ps as [|p0 ps]; [simpl in Hrows; lia|].
  destruct (pd.df_index df) as [|i0 idx] eqn:Hidx; [discriminate|].
  simpl in Hlen. injection Hlen as Hlen.
  assert (Hlr : length idx = length (map Fin (ratios_from p0 ps))).
  { rewrite length_map, length_ratios_from. exact Hlen. }
  split; [|split].
  - unfold DataLoader.get_returns, pd.has_column.
    fold adj_close. rewrite Hcol. cbn [negb].
    rewrite (getitem_present df adj_close _ Hcol). cbn [bind].
    rewrite Hidx. f_equal. exact Hret.
  - cbn [tl exact_returns]. rewrite length_combine, <- Hlr.
    simpl. lia.
  - intros i Hi. cbn [tl exact_returns].
    destruct i as [|i]; [lia|]. simpl in Hi.
    replace (S i - 1)%nat with i by lia.
    rewrite (nth_error_combine idx _ i 0%Z NaN Hlr) by lia.
    cbn [nth]. f_equal. f_equal.
    rewrite (nth_indep _ NaN (Fin 0))
      by (rewrite length_map, length_ratios_from; lia).
    rewrite (map_nth Fin). f_equal.
    apply nth_ratios_from. lia.
Qed.

Lemma get_returns_finite_prices_witness :
  pd.df_columns df_scenario !! adj_close = Some (map Fin scenario_prices)
  /\ length (pd.df_index df_scenario) = length scenario_prices
  /\ (2 <= length scenario_prices)%nat
  /\ Forall (fun p => p <> 0) scenario_prices
  /\ exists r,
       DataLoader.get_returns pd.no_fill df_scenario = Ok r
       /\ length r = (length scenario_prices - 1)%nat
       /\ forall i, (1 <= i < length scenario_prices)%nat ->
            nth_error r (i - 1)
            = Some (nth i (pd.df_index df_scenario) 0%Z,
                    Fin (nth i scenario_prices 0
                         / nth (i - 1) scenario_prices 0 - 1)).
Proof.
  assert (Hnz : Forall (fun p => p <> 0) scenario_prices).
  { unfold scenario_prices. repeat constructor; lra. }
  split; [reflexivity|]. split; [reflexivity|].
  split; [simpl; lia|]. split; [exact Hnz|].
  apply (get_returns_finite_prices pd.no_fill df_scenario scenario_prices).
  - reflexivity.
  - reflexivity.
  - simpl. lia.
  - exact Hnz.
Defined.

(** C1 as stated fails: with a missing first price the three-row table
    yields one return, not two, under either fill policy. *)
Lemma get_returns_leading_nan :
  ~ returns_length_claim pd.pad df_leading_nan
  /\ ~ returns_length_claim pd.no_fill df_leading_nan.
Proof.
  split; intros H;
    destruct (H [NaN; Fin 1; Fin 2] eq_refl eq_refl) as (r & Hr & Hl);
    try (simpl; lia);
    rewrite leading_nan_returns_eval in Hr; injection Hr as <-;
    simpl in Hl; discriminate.
Qed.

(** ** The benchmark argument *)

Lemma values_smap (f : float -> float) (s : Series) :
  pd.values (pd.smap f s) = map f (pd.values s).
Proof.
  unfold pd.values, pd.smap. rewrite !map_map. reflexivity.
Qed.

Lemma length_values (s : Series) : length (pd.values s) = length s.
Proof. unfold pd.values. apply length_map. Qed.

Lemma cov_same_length (x y : list float) :
  length x = length y ->
  np.cov x y
  = Ok ((np.cov_entry (np.center x) (np.center x),
         np.cov_entry (np.center x) (np.center y)),
        (np.cov_entry (np.center y) (np.center x),
         np.cov_entry (np.center y) (np.center y))).
Proof.
  intros H. unfold np.cov.
  destruct (Nat.eqb_spec (length x) (length y)); [reflexivity|contradiction].
Qed.

Lemma cov_length_mismatch (x y : list float) :
  length x <> length y ->
  np.cov x y = Raise (ValueError "array dimensions must match exactly").
Proof.
  intros H. unfold np.cov.
  destruct (Nat.eqb_spec (length x) (length y)); [contradiction|reflexivity].
Qed.

Lemma corr_returns (a b : Series) : returns_value (pd.corr a b).
Proof.
  unfold pd.corr, pd.nancorr.
  destruct (length (pd.align_inner a b) =? 0)%nat; [exact I|].
  set (valid := List.filter _ _).
  destruct (length valid <? 1)%nat; [exact I|].
  unfold np.corrcoef01.
  rewrite cov_same_length by (rewrite !length_map; reflexivity).
  exact I.
Qed.




(** ** Statistics of finite series *)

Lemma fold_left_Rplus (xs : list R) (a : R) :
  fold_left Rplus xs a = a + Rsum xs.
Proof.
  unfold Rsum. revert a. induction xs as [|x xs IH]; intros a; simpl.
  - lra.
  - rewrite (IH (a + x)), (IH (0 + x)). lra.
Qed.

Lemma Rsum_cons (x : R) (xs : list R) : Rsum (x :: xs) = x + Rsum xs.
Proof.
  unfold Rsum at 1. simpl. rewrite fold_left_Rplus. lra.
Qed.

Lemma Rsum_nil : Rsum [] = 0.
Proof. reflexivity. Qed.

Lemma fold_left_fadd_finite (xs : list R) (a : R) :
  fold_left fadd (map Fin xs) (Fin a) = Fin (fold_left Rplus xs a).
Proof.
  revert a. induction xs as [|x xs IH]; intros a; simpl; [reflexivity|].
  apply IH.
Qed.

Lemma sum_finite (xs : list R) : np.sum (map Fin xs) = Fin (Rsum xs).
Proof. apply fold_left_fadd_finite. Qed.

Lemma count_finite (xs : list R) : pd.count (map Fin xs) = length xs.
Proof.
  unfold pd.count. induction xs as [|x xs IH]; simpl; [reflexivity|].
  f_equal. exact IH.
Qed.

Lemma fill0_finite (xs : list R) : map pd.fill0 (map Fin xs) = map Fin xs.
Proof. rewrite map_map. reflexivity. Qed.

Lemma INR_pos_length {A : Type} (l : list A) :
  (1 <= length l)%nat -> 0 < INR (length l).
Proof. intros H. apply lt_0_INR. lia. Qed.

Lemma INR_pred_length {A : Type} (l : list A) :
  (2 <= length l)%nat -> 0 < INR (length l) - 1.
Proof.
  intros H. apply le_INR in H. simpl in H. lra.
Qed.

Lemma nanmean_finite (xs : list R) :
  (1 <= length xs)%nat -> pd.nanmean (map Fin xs) = Fin (Rmean xs).
Proof.
  intros Hn. unfold pd.nanmean. rewrite count_finite, fill0_finite.
  destruct (Nat.ltb_spec 0 (length xs)) as [_|Hc]; [|lia].
  rewrite sum_finite. apply fdiv_finite.
  pose proof (INR_pos_length xs Hn). lra.
Qed.

Lemma nanmean_empty : pd.nanmean [] = NaN.
Proof. reflexivity. Qed.

Lemma nanvar_short (xs : list float) :
  (length xs <= 1)%nat -> pd.nanvar xs = NaN.
Proof.
  intros Hn. unfold pd.nanvar.
  assert (Hc : (pd.count xs <= length xs)%nat)
    by (unfold pd.count; apply filter_length_le).
  destruct (Nat.leb_spec (pd.count xs) 1); [reflexivity|lia].
Qed.

Lemma nanvar_finite (xs : list R) :
  (2 <= length xs)%nat -> pd.nanvar (map Fin xs) = Fin (sample_var xs).
Proof.
  intros Hn. unfold pd.nanvar. rewrite count_finite, fill0_finite.
  destruct (Nat.leb_spec (length xs) 1) as [Hc|_]; [lia|].
  rewrite sum_finite.
  pose proof (INR_pos_length xs ltac:(lia)) as Hpos.
  pose proof (INR_pred_length xs Hn) as Hpred.
  rewrite fdiv_finite by lra. fold (Rmean xs).
  rewrite map_map. cbn [isna fsub fopp fadd fmul].
  rewrite <- (map_map (fun x => (Rmean xs + - x) * (Rmean xs + - x)) Fin).
  rewrite sum_finite, fdiv_finite by lra.
  f_equal. unfold sample_var, co_dev. f_equal. f_equal.
  clear. generalize (Rmean xs) as m. intros m.
  induction xs as [|x xs IH]; simpl; [reflexivity|].
  f_equal; [lra|exact IH].
Qed.

Lemma fsqrt_finite (x : R) : 0 <= x -> fsqrt (Fin x) = Fin (sqrt x).
Proof.
  intros Hx. simpl. destruct (Rlt_dec x 0); [lra|reflexivity].
Qed.

(** ** Zero denominators *)

Lemma fdiv_zero_not_finite (a : float) : is_finite (fdiv a (Fin 0)) = false.
Proof.
  destruct a as [x| | |]; simpl.
  - destruct (Req_dec_T 0 0) as [_|N]; [|contradiction].
    unfold signed_inf. destruct (Rlt_dec 0 x); [reflexivity|].
    destruct (Rlt_dec x 0); reflexivity.
  - destruct (Rlt_dec 0 0); reflexivity.
  - destruct (Rlt_dec 0 0); reflexivity.
  - reflexivity.
Qed.

Lemma fdiv_nan_r (a : float) : fdiv a NaN = NaN.
Proof. destruct a; reflexivity. Qed.

Lemma signed_inf_not_finite (x : R) : is_finite (signed_inf x) = false.
Proof.
  unfold signed_inf. destruct (Rlt_dec 0 x); [reflexivity|].
  destruct (Rlt_dec x 0); reflexivity.
Qed.

Lemma fmul_not_finite_l (a b : float) :
  is_finite a = false -> is_finite (fmul a b) = false.
Proof.
  destruct a as [x| | |], b as [y| | |]; cbn [fmul is_finite];
    try discriminate; intros _; try reflexivity;
    apply signed_inf_not_finite.
Qed.

Lemma fsub_not_finite_r (a b : float) :
  is_finite b = false -> is_finite (fsub a b) = false.
Proof.
  destruct a, b; simpl; try discriminate; reflexivity.
Qed.

(** C5.  On a table with the column, for every risk-free rate, a zero
    denominator gives a value that is not finite and never an exception:
    the Sharpe ratio when the excess returns have standard deviation zero;
    the Sortino ratio when the negative excess returns have standard
    deviation zero, and NaN when there is no negative excess return; beta
    and alpha against a benchmark of variance zero (and of matching
    length).  The four metrics without a benchmark return a value on every
    such table, and so does the correlation for every benchmark. *)
Theorem zero_denominator_not_raised
    (fm : pd.fill_method) (df : pd.DataFrame) (col : list float) (rf : R)
    (Hcol : pd.df_columns df !! adj_close = Some col) :
  let returns := column_returns fm df col in
  let excess_returns := excess_of rf returns in
  let downside_returns :=
    pd.mask_rows (fun v => flt v (Fin 0)) excess_returns in
  (pd.std excess_returns = Fin 0 ->
     exists v, calculate_sharpe_ratio fm df rf = Ok v
               /\ is_finite v = false)
  /\ (pd.std downside_returns = Fin 0 ->
        exists v, calculate_sortino_ratio fm df rf = Ok v
                  /\ is_finite v = false)
  /\ (downside_returns = [] ->
        calculate_sortino_ratio fm df rf = Ok NaN)
  /\ (returns_value (calculate_sharpe_ratio fm df rf)
      /\ returns_value (calculate_sortino_ratio fm df rf)
      /\ returns_value (calculate_max_drawdown fm df)
      /\ returns_value (calculate_volatility fm df))
  /\ (forall b, length b = length returns -> pd.var b = Fin 0 ->
        (exists v, calculate_beta fm df b = Ok v /\ is_finite v = false)
        /\ (exists v, calculate_alpha fm df b rf = Ok v
                      /\ is_finite v = false))
  /\ (forall b, returns_value (calculate_correlation fm df b)).
Proof.
  intros returns excess_returns downside_returns.
  split; [|split; [|split; [|split; [|split]]]].
  - intros Hstd. rewrite (sharpe_formula fm df col Hcol).
    fold returns. fold excess_returns. rewrite Hstd.
    eexists. split; [reflexivity|]. apply fdiv_zero_not_finite.
  - intros Hstd. rewrite (sortino_formula fm df col Hcol).
    fold returns. fold excess_returns. fold downside_returns.
    rewrite Hstd.
    eexists. split; [reflexivity|]. apply fdiv_zero_not_finite.
  - intros Hnone. rewrite (sortino_formula fm df col Hcol).
    fold returns. fold excess_returns. fold downside_returns.
    rewrite Hnone. f_equal. apply fdiv_nan_r.
  - rewrite (sharpe_formula fm df col Hcol),
      (sortino_formula fm df col Hcol),
      (max_drawdown_formula fm df col Hcol),
      (volatility_formula fm df col Hcol).
    repeat split.
  - intros b Hlen Hvar.
    assert (Hbeta : calculate_beta fm df b
                    = Ok (fdiv (np.cov_entry (np.center (pd.values returns))
                                             (np.center (pd.values b)))
                               (Fin 0))).
    { rewrite (beta_formula fm df col Hcol). fold returns.
      rewrite cov_same_length
        by (rewrite !length_values; symmetry; exact Hlen).
      cbn [bind fst snd]. rewrite Hvar. reflexivity. }
    split.
    + rewrite Hbeta. eexists. split; [reflexivity|].
      apply fdiv_zero_not_finite.
    + rewrite (alpha_formula fm df col Hcol), Hbeta. cbn [bind].
      eexists. split; [reflexivity|].
      apply fmul_not_finite_l, fsub_not_finite_r, fmul_not_finite_l.
      apply fdiv_zero_not_finite.
  - intros b. rewrite (correlation_formula fm df col Hcol).
    pose proof (corr_returns (column_returns fm df col) b) as Hc.
    destruct (pd.corr _ b); [exact I|contradiction].
Qed.

Lemma flat_excess_std :
  pd.std (excess_of (1 / 100)
            (column_returns pd.no_fill df_flat (map Fin flat_prices)))
  = Fin 0.
Proof.
  rewrite flat_returns. unfold pd.std, pd.nanstd, excess_of, flat_prices.
  rewrite values_smap, values_combine by reflexivity.
  cbn [exact_returns ratios_from map fsub fopp fadd].
  change [Fin (100 / 100 - 1 + - (1 / 100 / 252));
          Fin (100 / 100 - 1 + - (1 / 100 / 252))]
    with (map Fin [100 / 100 - 1 + - (1 / 100 / 252);
                   100 / 100 - 1 + - (1 / 100 / 252)]).
  rewrite nanvar_finite by (simpl; lia).
  assert (Hzero : sample_var [100 / 100 - 1 + - (1 / 100 / 252);
                              100 / 100 - 1 + - (1 / 100 / 252)] = 0).
  { unfold sample_var, co_dev, Rmean.
    cbn [combine map fst snd length].
    rewrite !Rsum_cons, !Rsum_nil. simpl INR. field. }
  rewrite Hzero, fsqrt_finite by lra. f_equal. apply sqrt_0.
Qed.

Lemma zero_denominator_not_raised_witness :
  pd.df_columns df_flat !! adj_close = Some (map Fin flat_prices)
  /\ exists v, calculate_sharpe_ratio pd.no_fill df_flat (1 / 100) = Ok v
               /\ is_finite v = false.
Proof.
  split; [reflexivity|].
  destruct (zero_denominator_not_raised pd.no_fill df_flat
              (map Fin flat_prices) (1 / 100) eq_refl)
    as (Hsharpe & _).
  apply Hsharpe. exact flat_excess_std.
Defined.

(** ** A finite variance means finite values *)

Lemma dropna_notna (s : Series) :
  Forall (fun v => isna v = false) (pd.values (pd.dropna s)).
Proof.
  unfold pd.values, pd.dropna, pd.mask_rows.
  induction s as [|[i v] s IH]; simpl; [constructor|].
  destruct (notna v) eqn:Hv; simpl; [|exact IH].
  constructor; [|exact IH].
  unfold notna in Hv. destruct (isna v); [discriminate|reflexivity].
Qed.

Lemma fadd_finite_inv (a b : float) (s : R) :
  fadd a b = Fin s -> is_finite a = true /\ is_finite b = true.
Proof. destruct a, b; simpl; intros H; try discriminate; split; reflexivity. Qed.

Lemma fold_left_fadd_finite_inv (l : list float) (a : float) (s : R) :
  fold_left fadd l a = Fin s ->
  is_finite a = true /\ Forall (fun v => is_finite v = true) l.
Proof.
  revert a. induction l as [|v l IH]; intros a H; simpl in H.
  - rewrite H. split; [reflexivity|constructor].
  - destruct (IH _ H) as [Hav Hl].
    destruct (fadd a v) as [x| | |] eqn:E; try discriminate.
    destruct (fadd_finite_inv a v x E) as [Ha Hv].
    split; [exact Ha|]. constructor; assumption.
Qed.

Lemma fdiv_finite_inv (a : float) (y v : R) :
  fdiv a (Fin y) = Fin v -> is_finite a = true.
Proof.
  destruct a as [x| | |]; simpl; try discriminate; [reflexivity| |];
    destruct (Rlt_dec y 0); discriminate.
Qed.

Lemma fmul_square_finite_inv (d : float) :
  is_finite (fmul d d) = true -> is_finite d = true.
Proof. destruct d; simpl; try discriminate; reflexivity. Qed.

Lemma fsub_finite_inv (a b : float) :
  is_finite (fsub a b) = true -> is_finite b = true.
Proof. destruct a, b; simpl; try discriminate; reflexivity. Qed.

Lemma finite_list (vs : list float) :
  Forall (fun v => is_finite v = true) vs -> exists xs, vs = map Fin xs.
Proof.
  induction 1 as [|v vs Hv _ [xs ->]].
  - exists []. reflexivity.
  - destruct v as [x| | |]; try discriminate.
    exists (x :: xs). reflexivity.
Qed.

Lemma count_notna (vs : list float) :
  Forall (fun v => isna v = false) vs -> pd.count vs = length vs.
Proof.
  unfold pd.count, notna. induction 1 as [|v vs Hv _ IH]; [reflexivity|].
  simpl. rewrite Hv. simpl. f_equal. exact IH.
Qed.

(** A series without missing values whose variance is a finite number
    consists of at least two finite numbers. *)
Lemma nanvar_finite_inv (vs : list float) (v : R) :
  Forall (fun x => isna x = false) vs ->
  pd.nanvar vs = Fin v ->
  exists xs, vs = map Fin xs /\ (2 <= length xs)%nat.
Proof.
  intros Hna Hvar. unfold pd.nanvar in Hvar.
  rewrite (count_notna vs Hna) in Hvar.
  destruct (Nat.leb_spec (length vs) 1) as [|Hlen]; [discriminate|].
  apply fdiv_finite_inv in Hvar.
  destruct (np.sum _) as [s| | |] eqn:Hsum; try discriminate.
  apply fold_left_fadd_finite_inv in Hsum. destruct Hsum as [_ Hsq].
  set (avg := fdiv _ _) in Hsq.
  assert (Hfin : Forall (fun x => is_finite x = true) vs).
  { clearbody avg. clear -Hna Hsq.
    induction vs as [|x vs IH]; [constructor|].
    inversion Hna as [|? ? Hx Hrest]; subst.
    simpl in Hsq. rewrite Hx in Hsq.
    inversion Hsq as [|? ? Hd Hsq']; subst.
    constructor; [|apply IH; assumption].
    apply fmul_square_finite_inv in Hd.
    apply fsub_finite_inv in Hd. exact Hd. }
  destruct (finite_list vs Hfin) as [xs ->].
  exists xs. split; [reflexivity|].
  rewrite length_map in Hlen. lia.
Qed.

(** ** numpy's covariance on finite rows *)

Lemma average_finite (xs : list R) :
  (1 <= length xs)%nat -> np.average (map Fin xs) = Fin (Rmean xs).
Proof.
  intros Hn. unfold np.average. rewrite sum_finite, length_map.
  apply fdiv_finite. pose proof (INR_pos_length xs Hn). lra.
Qed.

Lemma center_finite (xs : list R) :
  (1 <= length xs)%nat ->
  np.center (map Fin xs) = map Fin (map (fun x => x - Rmean xs) xs).
Proof.
  intros Hn. unfold np.center. rewrite (average_finite xs Hn).
  rewrite !map_map. reflexivity.
Qed.

Lemma products_finite (xs ys : list R) :
  map (fun p => fmul (fst p) (snd p)) (combine (map Fin xs) (map Fin ys))
  = map Fin (map (fun p => fst p * snd p) (combine xs ys)).
Proof.
  revert ys. induction xs as [|x xs IH]; intros [|y ys]; simpl;
    try reflexivity.
  f_equal. apply IH.
Qed.

Lemma centred_products (xs ys : list R) (mx my : R) :
  map (fun p => fst p * snd p)
      (combine (map (fun x => x - mx) xs) (map (fun y => y - my) ys))
  = map (fun p => (fst p - mx) * (snd p - my)) (combine xs ys).
Proof.
  revert ys. induction xs as [|x xs IH]; intros [|y ys]; simpl;
    try reflexivity.
  f_equal. apply IH.
Qed.

Lemma cov_entry_finite (xs ys : list R) :
  (2 <= length xs)%nat -> length xs = length ys ->
  np.cov_entry (np.center (map Fin xs)) (np.center (map Fin ys))
  = Fin (sample_cov xs ys).
Proof.
  intros Hn Hlen.
  rewrite !center_finite by lia.
  unfold np.cov_entry. rewrite !length_map.
  destruct (Nat.leb_spec (length xs) 1) as [|_]; [lia|].
  rewrite products_finite, centred_products, sum_finite.
  pose proof (INR_pred_length xs Hn) as Hpred.
  rewrite fdiv_finite by lra. cbn [fmul]. f_equal.
  unfold sample_cov, co_dev. field. lra.
Qed.

Lemma cov_finite (xs ys : list R) :
  (2 <= length xs)%nat -> length xs = length ys ->
  np.cov (map Fin xs) (map Fin ys)
  = Ok ((Fin (sample_cov xs xs), Fin (sample_cov xs ys)),
        (Fin (sample_cov ys xs), Fin (sample_cov ys ys))).
Proof.
  intros Hn Hlen.
  rewrite cov_same_length by (rewrite !length_map; exact Hlen).
  rewrite !cov_entry_finite by lia. reflexivity.
Qed.

(** ** A series against itself *)

(** The return series of a column, when its variance is a finite number. *)
Lemma returns_finite_variance (fm : pd.fill_method) (df : pd.DataFrame)
    (col : list float) (v : R) :
  pd.var (column_returns fm df col) = Fin v ->
  exists xs, pd.values (column_returns fm df col) = map Fin xs
             /\ (2 <= length xs)%nat
             /\ sample_var xs = v.
Proof.
  intros Hvar. unfold pd.var in Hvar.
  assert (Hna : Forall (fun x => isna x = false)
                       (pd.values (column_returns fm df col)))
    by apply dropna_notna.
  destruct (nanvar_finite_inv _ v Hna Hvar) as (xs & Hxs & Hn).
  exists xs. split; [exact Hxs|]. split; [exact Hn|].
  rewrite Hxs, (nanvar_finite xs Hn) in Hvar.
  injection Hvar as Hvar. exact Hvar.
Qed.

Lemma beta_of_own_returns (fm : pd.fill_method) (df : pd.DataFrame)
    (col : list float) (v : R) :
  pd.df_columns df !! adj_close = Some col ->
  pd.var (column_returns fm df col) = Fin v ->
  v <> 0 ->
  calculate_beta fm df (column_returns fm df col)
  = Ok (Fin 1).
Proof.
  intros Hcol Hvar Hv.
  rewrite (beta_formula fm df col Hcol), Hvar.
  destruct (returns_finite_variance fm df col v Hvar) as (xs & -> & Hn & Hs).
  rewrite (cov_finite xs xs Hn eq_refl). cbn [bind fst snd].
  rewrite fdiv_finite by exact Hv.
  change (sample_cov xs xs) with (sample_var xs). rewrite Hs.
  do 2 f_equal. field. exact Hv.
Qed.

(** C6.  When the variance of the return series of the table is a finite
    non-zero number, beta with that return series as the benchmark is 1. *)
Theorem beta_of_itself
    (fm : pd.fill_method) (df : pd.DataFrame) (col : list float) (v : R)
    (Hcol : pd.df_columns df !! adj_close = Some col)
    (Hvar : pd.var (column_returns fm df col) = Fin v)
    (Hv : v <> 0) :
  calculate_beta fm df (column_returns fm df col)
  = Ok (Fin 1).
Proof. exact (beta_of_own_returns fm df col v Hcol Hvar Hv). Qed.

(** C7.  Under the same condition alpha with the return series as its own
    benchmark is 0, for every risk-free rate. *)
Theorem alpha_of_itself
    (fm : pd.fill_method) (df : pd.DataFrame) (col : list float) (v rf : R)
    (Hcol : pd.df_columns df !! adj_close = Some col)
    (Hvar : pd.var (column_returns fm df col) = Fin v)
    (Hv : v <> 0) :
  calculate_alpha fm df (column_returns fm df col) rf
  = Ok (Fin 0).
Proof.
  rewrite (alpha_formula fm df col Hcol).
  rewrite (beta_of_own_returns fm df col v Hcol Hvar Hv). cbn [bind].
  destruct (returns_finite_variance fm df col v Hvar) as (xs & Hxs & Hn & _).
  unfold pd.mean, excess_of. rewrite values_smap, Hxs, map_map.
  cbn [fsub fopp fadd].
  rewrite <- (map_map (fun x => x + - (rf / 252)) Fin).
  rewrite nanmean_finite by (rewrite length_map; lia).
  cbn [fmul fsub fopp fadd]. do 2 f_equal. lra.
Qed.

Lemma scenario_variance :
  pd.var (column_returns pd.no_fill df_scenario (map Fin scenario_prices))
  = Fin (1 / 75).
Proof.
  rewrite scenario_returns. unfold pd.var.
  rewrite values_combine by reflexivity.
  rewrite nanvar_finite by (simpl; lia).
  f_equal. unfold sample_var, co_dev, Rmean, scenario_prices.
  cbn [exact_returns ratios_from combine map fst snd length].
  rewrite !Rsum_cons, !Rsum_nil. simpl INR. field.
Qed.

Lemma beta_of_itself_witness :
  pd.df_columns df_scenario !! adj_close = Some (map Fin scenario_prices)
  /\ 1 / 75 <> 0
  /\ calculate_beta pd.no_fill df_scenario
       (column_returns pd.no_fill df_scenario (map Fin scenario_prices))
     = Ok (Fin 1).
Proof.
  split; [reflexivity|]. split; [lra|].
  apply (beta_of_itself pd.no_fill df_scenario (map Fin scenario_prices)
           (1 / 75)).
  - reflexivity.
  - exact scenario_variance.
  - lra.
Defined.

Lemma alpha_of_itself_witness :
  pd.df_columns df_scenario !! adj_close = Some (map Fin scenario_prices)
  /\ 1 / 75 <> 0
  /\ calculate_alpha pd.no_fill df_scenario
       (column_returns pd.no_fill df_scenario (map Fin scenario_prices))
       (1 / 100)
     = Ok (Fin 0).
Proof.
  split; [reflexivity|]. split; [lra|].
  apply (alpha_of_itself pd.no_fill df_scenario (map Fin scenario_prices)
           (1 / 75) (1 / 100)).
  - reflexivity.
  - exact scenario_variance.
  - lra.
Defined.

(** ** Running product and running maximum *)

Lemma values_with_values (s : Series) (v : list float) :
  length s = length v -> pd.values (pd.with_values s v) = v.
Proof.
  intros H. unfold pd.with_values. apply values_combine.
  unfold pd.index. rewrite length_map. exact H.
Qed.

Lemma values_binop (op : float -> float -> float) (a b : Series) :
  pd.values (pd.binop op a b)
  = map (fun p => op (fst p) (snd p)) (combine (pd.values a) (pd.values b)).
Proof.
  unfold pd.values, pd.binop. revert b.
  induction a as [|[i x] a IH]; intros [|[j y] b]; simpl; try reflexivity.
  f_equal. apply IH.
Qed.

Lemma length_accumulate_from (op : float -> float -> float) (acc : float)
    (a : list float) :
  length (np.accumulate_from op acc a) = length a.
Proof.
  revert acc. induction a as [|x a IH]; intros acc; simpl; [reflexivity|].
  f_equal. apply IH.
Qed.

Lemma length_accumulate (op : float -> float -> float) (a : list float) :
  length (np.accumulate op a) = length a.
Proof.
  destruct a as [|x a]; simpl; [reflexivity|].
  f_equal. apply length_accumulate_from.
Qed.

Lemma putback_finite (xs : list R) (l : list float) :
  length l = length xs ->
  map (fun p => if isna (fst p) then NaN else snd p) (combine (map Fin xs) l)
  = l.
Proof.
  revert l. induction xs as [|x xs IH]; intros [|y l] H; simpl in *;
    try discriminate; try reflexivity.
  f_equal. apply IH. lia.
Qed.

Lemma na_accum_finite (op : float -> float -> float) (mask_a : float)
    (xs : list R) :
  pd.na_accum_func op mask_a (map Fin xs) = np.accumulate op (map Fin xs).
Proof.
  unfold pd.na_accum_func. rewrite map_map. cbn [isna].
  apply putback_finite. rewrite length_accumulate. apply length_map.
Qed.

Lemma accumulate_from_finite (fop : float -> float -> float)
    (op : R -> R -> R) (a : R) (xs : list R) :
  (forall x y, fop (Fin x) (Fin y) = Fin (op x y)) ->
  np.accumulate_from fop (Fin a) (map Fin xs) = map Fin (Racc op a xs).
Proof.
  intros Hop. revert a. induction xs as [|x xs IH]; intros a; simpl.
  - reflexivity.
  - rewrite Hop. f_equal. apply IH.
Qed.

Lemma accumulate_finite (fop : float -> float -> float)
    (op : R -> R -> R) (xs : list R) :
  (forall x y, fop (Fin x) (Fin y) = Fin (op x y)) ->
  np.accumulate fop (map Fin xs) = map Fin (Raccumulate op xs).
Proof.
  intros Hop. destruct xs as [|x xs]; simpl; [reflexivity|].
  f_equal. apply accumulate_from_finite. exact Hop.
Qed.

Lemma maximum_finite (x y : R) : np.maximum (Fin x) (Fin y) = Fin (Rmax x y).
Proof.
  unfold np.maximum, flt, Rmax.
  destruct (Rlt_dec x y), (Rle_dec x y); try reflexivity; try lra.
  f_equal. lra.
Qed.

Lemma length_Racc (op : R -> R -> R) (a : R) (xs : list R) :
  length (Racc op a xs) = length xs.
Proof.
  revert a. induction xs as [|x xs IH]; intros a; simpl; [reflexivity|].
  f_equal. apply IH.
Qed.

Lemma length_Raccumulate (op : R -> R -> R) (xs : list R) :
  length (Raccumulate op xs) = length xs.
Proof.
  destruct xs; simpl; [reflexivity|]. f_equal. apply length_Racc.
Qed.

Lemma drawdown_finite (cs pks : list R) :
  Forall (fun p => p <> 0) pks ->
  map (fun p => fdiv (fst p) (snd p))
      (combine (map (fun p => fsub (fst p) (snd p))
                    (combine (map Fin cs) (map Fin pks)))
               (map Fin pks))
  = map Fin (map (fun p => (fst p - snd p) / snd p) (combine cs pks)).
Proof.
  intros Hnz. revert cs. induction Hnz as [|p pks Hp _ IH]; intros [|c cs];
    simpl; try reflexivity.
  destruct (Req_dec_T p 0) as [E|_]; [contradiction|].
  f_equal. apply IH.
Qed.

(** The running product of positive factors stays positive and never
    exceeds its running maximum. *)
Lemma cumulative_below_peak (fs : list R) (c pk : R) :
  0 < c -> c <= pk -> Forall (fun f => 0 < f) fs ->
  Forall2 (fun c p => 0 < c <= p)
          (Racc Rmult c fs) (Racc Rmax pk (Racc Rmult c fs)).
Proof.
  intros Hc Hpk Hfs. revert c pk Hc Hpk.
  induction Hfs as [|f fs Hf _ IH]; intros c pk Hc Hpk; simpl.
  - constructor.
  - assert (Hcf : 0 < c * f) by (apply Rmult_lt_0_compat; assumption).
    constructor.
    + split; [exact Hcf|apply Rmax_r].
    + apply IH; [exact Hcf|apply Rmax_r].
Qed.

(** With factors of at least one the running product is its own running
    maximum. *)
Lemma cumulative_is_peak (fs : list R) (c : R) :
  0 < c -> Forall (fun f => 1 <= f) fs ->
  Racc Rmax c (Racc Rmult c fs) = Racc Rmult c fs.
Proof.
  intros Hc Hfs. revert c Hc.
  induction Hfs as [|f fs Hf _ IH]; intros c Hc; simpl; [reflexivity|].
  assert (Hge : c <= c * f) by nra.
  rewrite (Rmax_right c (c * f) Hge). f_equal. apply IH. lra.
Qed.

(** ** Maximum drawdown *)

Lemma length_na_accum (op : float -> float -> float) (mask_a : float)
    (a : list float) :
  length (pd.na_accum_func op mask_a a) = length a.
Proof.
  unfold pd.na_accum_func.
  rewrite length_map, length_combine, length_accumulate, length_map. lia.
Qed.

Lemma values_cumprod (s : Series) :
  pd.values (pd.cumprod s) = pd.na_accum_func fmul (Fin 1) (pd.values s).
Proof.
  unfold pd.cumprod. apply values_with_values.
  rewrite length_na_accum, length_values. reflexivity.
Qed.

Lemma values_cummax (s : Series) :
  pd.values (pd.cummax s) = pd.na_accum_func np.maximum NInf (pd.values s).
Proof.
  unfold pd.cummax. apply values_with_values.
  rewrite length_na_accum, length_values. reflexivity.
Qed.

(** The drawdown series the source computes, on finite returns whose
    running peak never vanishes. *)
Lemma drawdown_values_finite (returns : Series) (rs : list R) :
  pd.values returns = map Fin rs ->
  Forall (fun p => p <> 0)
         (Raccumulate Rmax (Raccumulate Rmult (map (fun r => 1 + r) rs))) ->
  pd.values (drawdown_series returns) = map Fin (exact_drawdowns rs).
Proof.
  intros Hrs Hnz. unfold drawdown_series.
  rewrite !values_binop, values_cummax, values_cumprod, values_smap, Hrs.
  rewrite map_map. cbn [fadd].
  rewrite <- (map_map (fun r => 1 + r) Fin).
  rewrite na_accum_finite.
  rewrite (accumulate_finite fmul Rmult) by reflexivity.
  rewrite na_accum_finite.
  rewrite (accumulate_finite np.maximum Rmax) by exact maximum_finite.
  rewrite (drawdown_finite _ _ Hnz). reflexivity.
Qed.

Lemma minimum_finite_cases (x y : R) :
  np.minimum (Fin x) (Fin y) = Fin x \/ np.minimum (Fin x) (Fin y) = Fin y.
Proof.
  unfold np.minimum, flt. destruct (Rlt_dec y x); [right|left]; reflexivity.
Qed.

Lemma fold_minimum_finite (P : R -> Prop) (ds : list R) (d0 : R) :
  P d0 -> Forall P ds ->
  exists m, fold_left np.minimum (map Fin ds) (Fin d0) = Fin m /\ P m.
Proof.
  intros H0 Hds. revert d0 H0.
  induction Hds as [|d ds Hd _ IH]; intros d0 H0; cbn [map fold_left].
  - exists d0. split; [reflexivity|exact H0].
  - destruct (minimum_finite_cases d0 d) as [-> | ->]; apply IH; assumption.
Qed.

Lemma nanmin_finite (P : R -> Prop) (ds : list R) :
  ds <> [] -> Forall P ds ->
  exists m, pd.nanmin (map Fin ds) = Fin m /\ P m.
Proof.
  intros Hne Hds. unfold pd.nanmin. rewrite count_finite, map_map.
  cbn [isna]. destruct ds as [|d ds]; [contradiction|].
  simpl length. cbn [Nat.ltb Nat.leb].
  inversion Hds as [|? ? Hd Hrest]; subst.
  exact (fold_minimum_finite P ds d Hd Hrest).
Qed.

Lemma factors_positive (p0 : R) (ps : list R) :
  Forall (fun p => 0 < p) (p0 :: ps) ->
  Forall (fun f => 0 < f) (map (fun r => 1 + r) (ratios_from p0 ps)).
Proof.
  revert p0. induction ps as [|p ps IH]; intros p0 Hpos; simpl.
  - constructor.
  - inversion Hpos as [|? ? H0 Hrest]; subst.
    inversion Hrest as [|? ? Hp _]; subst.
    constructor; [|apply IH; exact Hrest].
    replace (1 + (p / p0 - 1)) with (p / p0) by lra.
    apply Rdiv_lt_0_compat; assumption.
Qed.

Lemma factors_at_least_one (p0 : R) (ps : list R) :
  Forall (fun p => 0 < p) (p0 :: ps) ->
  Sorted Rle (p0 :: ps) ->
  Forall (fun f => 1 <= f) (map (fun r => 1 + r) (ratios_from p0 ps)).
Proof.
  revert p0. induction ps as [|p ps IH]; intros p0 Hpos Hsorted; simpl.
  - constructor.
  - inversion Hpos as [|? ? H0 Hrest]; subst.
    inversion Hsorted as [|? ? Hs Hhd]; subst.
    inversion Hhd as [|? ? Hle]; subst.
    constructor; [|apply IH; assumption].
    replace (1 + (p / p0 - 1)) with (p / p0) by lra.
    apply (Rmult_le_reg_r p0); [exact H0|].
    replace (p / p0 * p0) with p by (field; lra). lra.
Qed.

Lemma drawdowns_nonpositive (fs : list R) :
  Forall (fun f => 0 < f) fs ->
  Forall2 (fun c p => 0 < c <= p)
          (Raccumulate Rmult fs) (Raccumulate Rmax (Raccumulate Rmult fs)).
Proof.
  intros Hfs. destruct Hfs as [|f fs Hf Hrest]; simpl; [constructor|].
  constructor; [lra|].
  apply cumulative_below_peak; [exact Hf|lra|exact Hrest].
Qed.

Lemma peak_of_growing (fs : list R) :
  Forall (fun f => 1 <= f) fs ->
  Raccumulate Rmax (Raccumulate Rmult fs) = Raccumulate Rmult fs.
Proof.
  intros Hfs. destruct Hfs as [|f fs Hf Hrest]; simpl; [reflexivity|].
  f_equal. apply cumulative_is_peak; [lra|exact Hrest].
Qed.

Lemma Forall2_map_combine {A B C : Type} (Rel : A -> B -> Prop)
    (Q : C -> Prop) (f : A * B -> C) (l : list A) (l' : list B) :
  Forall2 Rel l l' ->
  (forall a b, Rel a b -> Q (f (a, b))) ->
  Forall Q (map f (combine l l')).
Proof.
  intros H HQ. induction H as [|a b l l' Hab _ IH]; simpl; constructor.
  - apply HQ. exact Hab.
  - exact IH.
Qed.

Lemma Forall2_and_equal {A : Type} (Rel : A -> A -> Prop) (S : Prop)
    (l l' : list A) :
  Forall2 Rel l l' -> (S -> l' = l) ->
  Forall2 (fun a b => Rel a b /\ (S -> b = a)) l l'.
Proof.
  intros H. induction H as [|a b l l' Hab _ IH]; intros Heq; constructor.
  - split; [exact Hab|]. intros HS. specialize (Heq HS). congruence.
  - apply IH. intros HS. specialize (Heq HS). congruence.
Qed.

Lemma Forall2_right {A B : Type} (Rel : A -> B -> Prop) (Q : B -> Prop)
    (l : list A) (l' : list B) :
  Forall2 Rel l l' -> (forall a b, Rel a b -> Q b) -> Forall Q l'.
Proof.
  intros H HQ. induction H as [|a b l l' Hab _ IH]; constructor.
  - exact (HQ a b Hab).
  - exact IH.
Qed.

Lemma positive_nonzero (ps : list R) :
  Forall (fun p => 0 < p) ps -> Forall (fun p => p <> 0) ps.
Proof.
  induction 1 as [|p l Hp _ IH]; constructor; [lra|exact IH].
Qed.

(** C4.  For a table of at least two rows with finite, strictly positive
    prices the maximum drawdown is a finite number that is at most 0, and
    it is 0 when the prices never decrease. *)
Theorem max_drawdown_nonpositive
    (fm : pd.fill_method) (df : pd.DataFrame) (ps : list R)
    (Hcol : pd.df_columns df !! adj_close = Some (map Fin ps))
    (Hlen : length (pd.df_index df) = length ps)
    (Hrows : (2 <= length ps)%nat)
    (Hpos : Forall (fun p => 0 < p) ps) :
  exists m,
    calculate_max_drawdown fm df = Ok (Fin m)
    /\ m <= 0
    /\ (Sorted Rle ps -> m = 0).
Proof.
  assert (Hnz : Forall (fun p => p <> 0) ps).
  { exact (positive_nonzero ps Hpos). }
  rewrite (max_drawdown_formula fm df (map Fin ps) Hcol).
  unfold column_returns.
  rewrite (returns_of_finite fm (pd.df_index df) ps Hlen Hnz).
  destruct ps as [|p0 ps]; [simpl in Hrows; lia|].
  cbn [exact_returns]. simpl in Hrows, Hlen.
  set (rs := ratios_from p0 ps).
  set (returns := combine (tl (pd.df_index df)) (map Fin rs)).
  assert (Hlrs : length rs = length ps) by apply length_ratios_from.
  assert (Hvalues : pd.values returns = map Fin rs).
  { apply values_combine. rewrite length_map, Hlrs.
    destruct (pd.df_index df); simpl in *; lia. }
  set (fs := map (fun r => 1 + r) rs).
  pose proof (factors_positive p0 ps Hpos) as Hfs. fold rs fs in Hfs.
  pose proof (drawdowns_nonpositive fs Hfs) as Hbelow.
  assert (Hpeak : Forall (fun p => p <> 0)
                         (Raccumulate Rmax (Raccumulate Rmult fs))).
  { apply (Forall2_right _ _ _ _ Hbelow). intros a b [Ha Hb]. lra. }
  unfold pd.min.
  rewrite (drawdown_values_finite returns rs Hvalues Hpeak).
  destruct (nanmin_finite
              (fun d => d <= 0 /\ (Sorted Rle (p0 :: ps) -> d = 0))
              (exact_drawdowns rs)) as (m & Hm & Hle & Hzero).
  - intros E. apply (f_equal (@length R)) in E.
    unfold exact_drawdowns in E.
    rewrite length_map, length_combine, !length_Raccumulate, length_map
      in E.
    simpl in E. lia.
  - unfold exact_drawdowns. fold fs.
    apply (Forall2_map_combine
             (fun c p => 0 < c <= p /\ (Sorted Rle (p0 :: ps) -> p = c))).
    + apply Forall2_and_equal; [exact Hbelow|].
      intros Hsorted. apply peak_of_growing.
      exact (factors_at_least_one p0 ps Hpos Hsorted).
    + intros c p [[Hc Hcp] Heq]. cbn [fst snd]. split.
      * apply (Rmult_le_reg_r p); [lra|].
        replace ((c - p) / p * p) with (c - p) by (field; lra). lra.
      * intros Hsorted. rewrite (Heq Hsorted).
        unfold Rdiv, Rminus. rewrite Rplus_opp_r. apply Rmult_0_l.
  - rewrite Hm. cbn [fmul]. exists (m * 100).
    split; [reflexivity|]. split; [lra|].
    intros Hsorted. rewrite (Hzero Hsorted). lra.
Qed.

Lemma max_drawdown_nonpositive_witness :
  pd.df_columns df_scenario !! adj_close = Some (map Fin scenario_prices)
  /\ length (pd.df_index df_scenario) = length scenario_prices
  /\ (2 <= length scenario_prices)%nat
  /\ Forall (fun p => 0 < p) scenario_prices
  /\ exists m,
       calculate_max_drawdown pd.no_fill df_scenario = Ok (Fin m)
       /\ m <= 0
       /\ (Sorted Rle scenario_prices -> m = 0).
Proof.
  assert (Hpos : Forall (fun p => 0 < p) scenario_prices).
  { unfold scenario_prices. repeat constructor; lra. }
  split; [reflexivity|]. split; [reflexivity|].
  split; [simpl; lia|]. split; [exact Hpos|].
  apply (max_drawdown_nonpositive pd.no_fill df_scenario scenario_prices).
  - reflexivity.
  - reflexivity.
  - simpl. lia.
  - exact Hpos.
Defined.

(** ** Correlation *)

(** Cauchy-Schwarz for the deviations from two arbitrary centres. *)
Lemma cauchy_schwarz_step (a b sab saa sbb : R) :
  0 <= saa -> 0 <= sbb -> sab * sab <= saa * sbb ->
  (a * b + sab) * (a * b + sab) <= (a * a + saa) * (b * b + sbb).
Proof.
  intros Haa Hbb Hcs.
  set (u := a * a * sbb + b * b * saa).
  set (w := 2 * (a * b) * sab).
  assert (Ha2 : 0 <= a * a) by nra.
  assert (Hb2 : 0 <= b * b) by nra.
  assert (Hu : 0 <= u).
  { unfold u. apply Rplus_le_le_0_compat; apply Rmult_le_pos; assumption. }
  assert (Hsq : w * w <= u * u).
  { assert (H1 : 4 * (a * a) * (b * b) * (sab * sab)
                 <= 4 * (a * a) * (b * b) * (saa * sbb)).
    { apply Rmult_le_compat_l; [|exact Hcs].
      rewrite Rmult_assoc. apply Rmult_le_pos; [lra|].
      apply Rmult_le_pos; assumption. }
    pose proof (Rle_0_sqr (a * a * sbb - b * b * saa)) as H2.
    unfold Rsqr in H2. unfold u, w.
    assert (E : (a * a * sbb + b * b * saa) * (a * a * sbb + b * b * saa)
                - 2 * (a * b) * sab * (2 * (a * b) * sab)
                = (a * a * sbb - b * b * saa) * (a * a * sbb - b * b * saa)
                  + (4 * (a * a) * (b * b) * (saa * sbb)
                     - 4 * (a * a) * (b * b) * (sab * sab))) by ring.
    lra. }
  assert (Hwu : w <= u).
  { destruct (Rle_dec w 0) as [Hw|Hw]; [lra|].
    destruct (Rle_dec w u) as [|Hgt]; [assumption|]. exfalso. nra. }
  unfold u, w in Hwu. nra.
Qed.

Lemma cauchy_schwarz_lists (xs ys : list R) (mx my : R) :
  length xs = length ys ->
  let sxy := Rsum (map (fun p => (fst p - mx) * (snd p - my))
                       (combine xs ys)) in
  let sxx := Rsum (map (fun p => (fst p - mx) * (snd p - mx))
                       (combine xs xs)) in
  let syy := Rsum (map (fun p => (fst p - my) * (snd p - my))
                       (combine ys ys)) in
  0 <= sxx /\ 0 <= syy /\ sxy * sxy <= sxx * syy.
Proof.
  revert ys. induction xs as [|x xs IH]; intros [|y ys] Hlen;
    simpl in Hlen; try discriminate.
  - simpl. rewrite Rsum_nil. lra.
  - injection Hlen as Hlen. specialize (IH ys Hlen).
    cbn [combine map fst snd]. cbv zeta in IH |- *.
    rewrite !Rsum_cons.
    destruct IH as (Hxx & Hyy & Hcs).
    pose proof (Rle_0_sqr (x - mx)) as Hx2.
    pose proof (Rle_0_sqr (y - my)) as Hy2.
    unfold Rsqr in Hx2, Hy2.
    split; [lra|]. split; [lra|].
    apply cauchy_schwarz_step; assumption.
Qed.

Lemma co_dev_cauchy_schwarz (xs ys : list R) :
  length xs = length ys ->
  0 <= co_dev xs xs /\ 0 <= co_dev ys ys
  /\ co_dev xs ys * co_dev xs ys <= co_dev xs xs * co_dev ys ys.
Proof.
  intros Hlen. unfold co_dev.
  exact (cauchy_schwarz_lists xs ys (Rmean xs) (Rmean ys) Hlen).
Qed.

(** Pearson's coefficient lies between -1 and 1. *)
Lemma pearson_bounds (xs ys : list R) :
  length xs = length ys ->
  0 < co_dev xs xs -> 0 < co_dev ys ys ->
  -1 <= pearson xs ys <= 1.
Proof.
  intros Hlen Hx Hy.
  destruct (co_dev_cauchy_schwarz xs ys Hlen) as (_ & _ & Hcs).
  unfold pearson.
  set (c := co_dev xs ys) in *.
  rewrite <- sqrt_mult by lra.
  set (d := sqrt (co_dev xs xs * co_dev ys ys)).
  assert (Hd : 0 < d).
  { apply sqrt_lt_R0. apply Rmult_lt_0_compat; assumption. }
  assert (Hdd : d * d = co_dev xs xs * co_dev ys ys).
  { apply sqrt_sqrt. nra. }
  assert (Habs : - d <= c <= d).
  { split.
    - destruct (Rle_dec (- d) c) as [|N]; [assumption|]. exfalso. nra.
    - destruct (Rle_dec c d) as [|N]; [assumption|]. exfalso. nra. }
  split.
  - apply (Rmult_le_reg_r d); [exact Hd|].
    replace (c / d * d) with c by (field; lra). lra.
  - apply (Rmult_le_reg_r d); [exact Hd|].
    replace (c / d * d) with c by (field; lra). lra.
Qed.

Lemma clip_inside (r : R) :
  -1 <= r <= 1 -> np.clip (Fin r) (Fin (-1)) (Fin 1) = Fin r.
Proof.
  intros [Hlo Hhi]. unfold np.clip, np.maximum, np.minimum, flt.
  destruct (Rlt_dec r (-1)); [lra|].
  destruct (Rlt_dec 1 r); [lra|reflexivity].
Qed.

(** numpy's coefficient on two finite rows of non-zero variance. *)
Lemma corrcoef_finite (xs ys : list R) :
  (2 <= length xs)%nat -> length xs = length ys ->
  sample_var xs <> 0 -> sample_var ys <> 0 ->
  np.corrcoef01 (map Fin xs) (map Fin ys) = Ok (Fin (pearson xs ys))
  /\ -1 <= pearson xs ys <= 1.
Proof.
  intros Hn Hlen Hvx Hvy.
  pose proof (INR_pred_length xs Hn) as Hk.
  assert (Hk' : 0 < INR (length ys) - 1) by (rewrite <- Hlen; exact Hk).
  destruct (co_dev_cauchy_schwarz xs ys Hlen) as (Hxx & Hyy & _).
  assert (Hx : 0 < co_dev xs xs).
  { destruct Hxx as [H|E]; [exact H|]. exfalso. apply Hvx.
    unfold sample_var. rewrite <- E. unfold Rdiv. apply Rmult_0_l. }
  assert (Hy : 0 < co_dev ys ys).
  { destruct Hyy as [H|E]; [exact H|]. exfalso. apply Hvy.
    unfold sample_var. rewrite <- E. unfold Rdiv. apply Rmult_0_l. }
  pose proof (pearson_bounds xs ys Hlen Hx Hy) as Hb.
  split; [|exact Hb].
  unfold np.corrcoef01. rewrite (cov_finite xs ys Hn Hlen).
  cbn [bind fst snd].
  change (sample_cov xs xs) with (sample_var xs).
  change (sample_cov ys ys) with (sample_var ys).
  assert (Hsvx : 0 < sample_var xs)
    by (unfold sample_var; apply Rdiv_lt_0_compat; assumption).
  assert (Hsvy : 0 < sample_var ys)
    by (unfold sample_var; apply Rdiv_lt_0_compat; assumption).
  rewrite !fsqrt_finite by lra.
  pose proof (sqrt_lt_R0 _ Hsvx) as Hsx.
  pose proof (sqrt_lt_R0 _ Hsvy) as Hsy.
  rewrite !fdiv_finite by lra.
  assert (E : sample_cov xs ys / sqrt (sample_var xs) / sqrt (sample_var ys)
              = pearson xs ys).
  { unfold pearson, sample_cov, sample_var. rewrite <- Hlen.
    set (k := INR (length xs) - 1) in *.
    rewrite !sqrt_div_alt by exact Hk.
    pose proof (sqrt_lt_R0 _ Hk) as Hs.
    pose proof (sqrt_lt_R0 _ Hx) as Hsxx.
    pose proof (sqrt_lt_R0 _ Hy) as Hsyy.
    pose proof (sqrt_sqrt k (Rlt_le _ _ Hk)) as Hss.
    rewrite <- Hss at 1. field. lra. }
  rewrite E. f_equal. apply clip_inside. exact Hb.
Qed.

Lemma align_same_index (a b : Series) :
  pd.index a = pd.index b ->
  pd.align_inner a b = combine (pd.values a) (pd.values b).
Proof.
  intros H. unfold pd.align_inner.
  destruct (decide (pd.index a = pd.index b)); [reflexivity|contradiction].
Qed.

Lemma valid_pairs_finite (xs ys : list R) :
  List.filter (fun p => notna (fst p) && notna (snd p))
              (combine (map Fin xs) (map Fin ys))
  = combine (map Fin xs) (map Fin ys).
Proof.
  revert ys. induction xs as [|x xs IH]; intros [|y ys]; simpl;
    try reflexivity.
  f_equal. apply IH.
Qed.

Lemma fst_combine {A B : Type} (l : list A) (l' : list B) :
  length l = length l' -> map fst (combine l l') = l.
Proof.
  revert l'. induction l as [|a l IH]; intros [|b l'] H; simpl in *;
    try discriminate; try reflexivity.
  f_equal. apply IH. lia.
Qed.

Lemma snd_combine {A B : Type} (l : list A) (l' : list B) :
  length l = length l' -> map snd (combine l l') = l'.
Proof.
  revert l'. induction l as [|a l IH]; intros [|b l'] H; simpl in *;
    try discriminate; try reflexivity.
  f_equal. apply IH. lia.
Qed.

(** [Series.corr] on two finite series of one index. *)
Lemma corr_finite (a b : Series) (xs ys : list R) :
  pd.index a = pd.index b ->
  pd.values a = map Fin xs -> pd.values b = map Fin ys ->
  (2 <= length xs)%nat ->
  sample_var xs <> 0 -> sample_var ys <> 0 ->
  pd.corr a b = Ok (Fin (pearson xs ys)) /\ -1 <= pearson xs ys <= 1.
Proof.
  intros Hidx Ha Hb Hn Hvx Hvy.
  assert (Hlen : length xs = length ys).
  { apply (f_equal (@length label)) in Hidx. unfold pd.index in Hidx.
    rewrite !length_map in Hidx.
    rewrite <- (length_map Fin xs), <- (length_map Fin ys), <- Ha, <- Hb.
    rewrite !length_values. exact Hidx. }
  assert (Hmap : length (map Fin xs) = length (map Fin ys))
    by (rewrite !length_map; exact Hlen).
  unfold pd.corr. rewrite (align_same_index a b Hidx), Ha, Hb.
  assert (Hpairs : length (combine (map Fin xs) (map Fin ys)) = length xs).
  { rewrite length_combine, !length_map. lia. }
  rewrite Hpairs.
  destruct (Nat.eqb_spec (length xs) 0) as [|_]; [lia|].
  unfold pd.nancorr. rewrite valid_pairs_finite, Hpairs.
  destruct (Nat.ltb_spec (length xs) 1) as [|_]; [lia|].
  rewrite (fst_combine _ _ Hmap), (snd_combine _ _ Hmap).
  exact (corrcoef_finite xs ys Hn Hlen Hvx Hvy).
Qed.

(** C9, as amended.  For a benchmark without missing values that carries
    the labels of the table's return series, both series having a finite
    non-zero variance, the correlation is Pearson's coefficient of the two
    value lists and lies between -1 and 1. *)
Theorem correlation_is_pearson
    (fm : pd.fill_method) (df : pd.DataFrame) (col : list float)
    (b : Series) (vx vy : R)
    (Hcol : pd.df_columns df !! adj_close = Some col)
    (Hidx : pd.index b
            = pd.index (column_returns fm df col))
    (Hna : Forall (fun v => isna v = false) (pd.values b))
    (Hvx : pd.var (column_returns fm df col) = Fin vx)
    (Hvx0 : vx <> 0)
    (Hvy : pd.var b = Fin vy)
    (Hvy0 : vy <> 0) :
  exists xs ys,
    pd.values (column_returns fm df col) = map Fin xs
    /\ pd.values b = map Fin ys
    /\ calculate_correlation fm df b = Ok (Fin (pearson xs ys))
    /\ -1 <= pearson xs ys <= 1.
Proof.
  destruct (returns_finite_variance fm df col vx Hvx) as (xs & Hxs & Hn & Hsx).
  destruct (nanvar_finite_inv _ vy Hna Hvy) as (ys & Hys & Hm).
  assert (Hsy : sample_var ys = vy).
  { unfold pd.var in Hvy. rewrite Hys, (nanvar_finite ys Hm) in Hvy.
    injection Hvy as Hvy. exact Hvy. }
  exists xs, ys. split; [exact Hxs|]. split; [exact Hys|].
  rewrite (correlation_formula fm df col Hcol).
  destruct (corr_finite _ b xs ys (eq_sym Hidx) Hxs Hys Hn) as [Hc Hb].
  - rewrite Hsx. exact Hvx0.
  - rewrite Hsy. exact Hvy0.
  - rewrite Hc. split; [reflexivity|exact Hb].
Qed.

Lemma benchmark_variance (idx : list label) :
  length idx = 3%nat ->
  pd.var (combine idx (map Fin benchmark_values)) = Fin (1 / 100).
Proof.
  intros Hidx. unfold pd.var.
  rewrite values_combine by (rewrite Hidx; reflexivity).
  rewrite nanvar_finite by (simpl; lia).
  f_equal. unfold sample_var, co_dev, Rmean, benchmark_values.
  cbn [combine map fst snd length].
  rewrite !Rsum_cons, !Rsum_nil. simpl INR. field.
Qed.

Lemma correlation_is_pearson_witness :
  pd.df_columns df_scenario !! adj_close = Some (map Fin scenario_prices)
  /\ 1 / 75 <> 0
  /\ 1 / 100 <> 0
  /\ exists xs ys,
       pd.values (column_returns pd.no_fill df_scenario (map Fin scenario_prices)) = map Fin xs
       /\ pd.values aligned_benchmark = map Fin ys
       /\ calculate_correlation pd.no_fill df_scenario aligned_benchmark
          = Ok (Fin (pearson xs ys))
       /\ -1 <= pearson xs ys <= 1.
Proof.
  split; [reflexivity|]. split; [lra|]. split; [lra|].
  apply (correlation_is_pearson pd.no_fill df_scenario
           (map Fin scenario_prices) aligned_benchmark (1 / 75) (1 / 100)).
  - reflexivity.
  - rewrite scenario_returns. reflexivity.
  - unfold aligned_benchmark, benchmark_values. simpl.
    repeat constructor.
  - exact scenario_variance.
  - lra.
  - exact (benchmark_variance [2; 3; 4]%Z eq_refl).
  - lra.
Defined.

Lemma correlation_shifted_benchmark :
  calculate_correlation pd.no_fill df_scenario shifted_benchmark = Ok NaN.
Proof.
  rewrite (correlation_formula pd.no_fill df_scenario
             (map Fin scenario_prices) eq_refl).
  rewrite scenario_returns. unfold pd.corr, pd.align_inner.
  destruct (decide _) as [E|_]; [discriminate E|].
  reflexivity.
Qed.

(** C9 as stated fails: a benchmark of the right length and of non-zero
    variance, but filed under other dates, has no row in common with the
    return series and the correlation is NaN. *)
Lemma correlation_needs_common_labels :
  ~ correlation_claim pd.no_fill df_scenario shifted_benchmark.
Proof.
  intros H.
  destruct (H (map Fin scenario_prices) (1 / 75) (1 / 100)) as (rho & Hr & _).
  - reflexivity.
  - rewrite scenario_returns. reflexivity.
  - exact scenario_variance.
  - lra.
  - exact (benchmark_variance [12; 13; 14]%Z eq_refl).
  - lra.
  - rewrite correlation_shifted_benchmark in Hr. discriminate Hr.
Qed.

(** * Further properties of the code *)

(** ** The return series in general *)

Lemma length_ffill_from (last : float) (a : list float) :
  length (pd.ffill_from last a) = length a.
Proof.
  revert last. induction a as [|x a IH]; intros last; simpl; [reflexivity|].
  f_equal. apply IH.
Qed.

Lemma length_removelast_cons {A : Type} (x : A) (l : list A) :
  length (removelast (x :: l)) = length l.
Proof.
  revert x. induction l as [|y l IH]; intros x; [reflexivity|].
  change (removelast (x :: y :: l)) with (x :: removelast (y :: l)).
  simpl length. f_equal. apply IH.
Qed.

Lemma length_shift (a : list float) : length (pd.shift a) = length a.
Proof.
  destruct a as [|x a]; [reflexivity|].
  unfold pd.shift. cbn [length]. rewrite length_removelast_cons. reflexivity.
Qed.

Lemma length_pct_change (fm : pd.fill_method) (s : Series) :
  length (pd.pct_change fm s) = length s.
Proof.
  unfold pd.pct_change, pd.with_values, pd.index.
  rewrite length_combine, !length_map, length_combine, length_shift.
  destruct fm; unfold pd.ffill;
    rewrite ?length_ffill_from, length_values; lia.
Qed.

(** The first row of [pct_change()] is always missing. *)
Lemma pct_change_first (fm : pd.fill_method) (i : label) (x : float)
    (s : Series) :
  exists rest, pd.pct_change fm ((i, x) :: s) = (i, NaN) :: rest
               /\ length rest = length s.
Proof.
  unfold pd.pct_change, pd.with_values.
  cbn [pd.index pd.values map fst snd].
  set (data := match fm with
               | pd.pad => pd.ffill (x :: map snd s)
               | pd.no_fill => x :: map snd s
               end).
  assert (Hdata : exists d0 drest,
             data = d0 :: drest /\ length drest = length s).
  { destruct fm; unfold data, pd.ffill; cbn [pd.ffill_from];
      eexists; eexists; (split; [reflexivity|]);
      rewrite ?length_ffill_from; apply length_map. }
  destruct Hdata as (d0 & drest & -> & Hd).
  unfold pd.shift. cbn [combine map fst snd].
  rewrite fdiv_nan_r. cbn [fsub fadd].
  eexists. split; [reflexivity|].
  rewrite length_combine, !length_map, length_combine,
    length_removelast_cons.
  lia.
Qed.

Lemma length_dropna (s : Series) : (length (pd.dropna s) <= length s)%nat.
Proof. unfold pd.dropna, pd.mask_rows. apply filter_length_le. Qed.

Lemma length_returns_of (fm : pd.fill_method) (s : Series) :
  (length (returns_of fm s) <= length s - 1)%nat.
Proof.
  destruct s as [|[i x] s].
  - rewrite returns_of_short by (simpl; lia). simpl. lia.
  - unfold returns_of. destruct (pct_change_first fm i x s) as (rest & -> & Hrest).
    unfold pd.dropna, pd.mask_rows. cbn [List.filter snd notna isna negb].
    pose proof (filter_length_le (fun p => notna (snd p)) rest).
    simpl. lia.
Qed.

Lemma get_returns_present (fm : pd.fill_method) (df : pd.DataFrame)
    (col : list float) :
  pd.df_columns df !! adj_close = Some col ->
  DataLoader.get_returns fm df = Ok (column_returns fm df col).
Proof.
  intros Hcol. unfold DataLoader.get_returns, pd.has_column.
  fold adj_close. rewrite Hcol. cbn [negb].
  rewrite (getitem_present df adj_close col Hcol). reflexivity.
Qed.

(** X1.  On every table that has the column, whatever its prices,
    [get_returns] returns a series without missing values that has at most
    N - 1 rows for N table rows: the first row is always dropped. *)
Theorem get_returns_drops_undefined
    (fm : pd.fill_method) (df : pd.DataFrame) (col : list float)
    (Hcol : pd.df_columns df !! adj_close = Some col) :
  exists r,
    DataLoader.get_returns fm df = Ok r
    /\ Forall (fun v => isna v = false) (pd.values r)
    /\ (length r <= length (pd.df_index df) - 1)%nat.
Proof.
  exists (column_returns fm df col).
  split; [exact (get_returns_present fm df col Hcol)|]. split.
  - apply dropna_notna.
  - unfold column_returns.
    pose proof (length_returns_of fm (combine (pd.df_index df) col)).
    pose proof (combine_short (pd.df_index df) col). lia.
Qed.

Lemma get_returns_drops_undefined_witness :
  pd.df_columns df_leading_nan !! adj_close = Some [NaN; Fin 1; Fin 2]
  /\ exists r,
       DataLoader.get_returns pd.pad df_leading_nan = Ok r
       /\ Forall (fun v => isna v = false) (pd.values r)
       /\ (length r <= length (pd.df_index df_leading_nan) - 1)%nat.
Proof.
  split; [reflexivity|].
  apply (get_returns_drops_undefined pd.pad df_leading_nan
           [NaN; Fin 1; Fin 2]).
  reflexivity.
Defined.

(** ** Volatility *)

Lemma volatility_needs_column (fm : pd.fill_method)
    (df : pd.DataFrame) (v : float) :
  pd.df_columns df !! adj_close = None ->
  calculate_volatility fm df = Ok v -> False.
Proof.
  intros Hcol. unfold calculate_volatility.
  pose proof (getitem_missing df adj_close Hcol) as Hget.
  unfold adj_close in Hget. rewrite Hget. discriminate.
Qed.

Lemma fsqrt_not_negative (a : float) : flt (fsqrt a) (Fin 0) = false.
Proof.
  destruct a as [x| | |]; simpl; try reflexivity.
  destruct (Rlt_dec x 0); [reflexivity|]. simpl.
  pose proof (sqrt_pos x). destruct (Rlt_dec (sqrt x) 0); [lra|reflexivity].
Qed.

Lemma fmul_positive_not_negative (a : float) (c : R) :
  0 < c -> flt a (Fin 0) = false -> flt (fmul a (Fin c)) (Fin 0) = false.
Proof.
  intros Hc. destruct a as [x| | |]; simpl; try discriminate.
  - destruct (Rlt_dec x 0); [discriminate|]. intros _.
    destruct (Rlt_dec (x * c) 0); [nra|reflexivity].
  - intros _. unfold signed_inf. destruct (Rlt_dec 0 c); [reflexivity|lra].
  - reflexivity.
Qed.

(** X2.  Whenever [calculate_volatility] returns, its value is not
    negative: it is a finite number >= 0, +inf or NaN. *)
Theorem volatility_never_negative
    (fm : pd.fill_method) (df : pd.DataFrame) (v : float)
    (Hret : calculate_volatility fm df = Ok v) :
  flt v (Fin 0) = false.
Proof.
  destruct (pd.df_columns df !! adj_close) as [col|] eqn:Hcol.
  - rewrite (volatility_formula fm df col Hcol) in Hret.
    injection Hret as <-.
    apply fmul_positive_not_negative; [lra|].
    apply fmul_positive_not_negative.
    + apply sqrt_lt_R0. lra.
    + apply fsqrt_not_negative.
  - destruct (volatility_needs_column fm df v Hcol Hret).
Qed.

Lemma std_is_sqrt_var (s : Series) : pd.std s = fsqrt (pd.var s).
Proof. reflexivity. Qed.

Lemma scenario_volatility :
  calculate_volatility pd.no_fill df_scenario
  = Ok (Fin (sqrt (1 / 75) * sqrt 252 * 100)).
Proof.
  rewrite (volatility_formula pd.no_fill df_scenario
             (map Fin scenario_prices) eq_refl).
  rewrite std_is_sqrt_var, scenario_variance.
  rewrite fsqrt_finite by lra. reflexivity.
Qed.

Lemma volatility_never_negative_witness :
  calculate_volatility pd.no_fill df_scenario
  = Ok (Fin (sqrt (1 / 75) * sqrt 252 * 100))
  /\ flt (Fin (sqrt (1 / 75) * sqrt 252 * 100)) (Fin 0) = false.
Proof.
  split; [exact scenario_volatility|].
  exact (volatility_never_negative pd.no_fill df_scenario _
           scenario_volatility).
Defined.

Lemma sample_var_nonneg (xs : list R) :
  (2 <= length xs)%nat -> 0 <= sample_var xs.
Proof.
  intros Hn. unfold sample_var.
  destruct (co_dev_cauchy_schwarz xs xs eq_refl) as (Hc & _).
  pose proof (INR_pred_length xs Hn) as Hk.
  apply Rle_mult_inv_pos; assumption.
Qed.

(** X3.  For a table of at least three rows with finite non-zero prices
    the volatility is the square root of the sample variance (divisor
    n - 1) of the exact returns, times sqrt(252), times 100. *)
Theorem volatility_formula_finite
    (fm : pd.fill_method) (df : pd.DataFrame) (ps : list R)
    (Hcol : pd.df_columns df !! adj_close = Some (map Fin ps))
    (Hlen : length (pd.df_index df) = length ps)
    (Hrows : (3 <= length ps)%nat)
    (Hnz : Forall (fun p => p <> 0) ps) :
  calculate_volatility fm df
  = Ok (Fin (sqrt (sample_var (exact_returns ps)) * sqrt 252 * 100)).
Proof.
  rewrite (volatility_formula fm df (map Fin ps) Hcol).
  unfold column_returns.
  rewrite (returns_of_finite fm (pd.df_index df) ps Hlen Hnz).
  assert (Hn : (2 <= length (exact_returns ps))%nat).
  { destruct ps as [|p0 ps]; [simpl in Hrows; lia|].
    cbn [exact_returns]. rewrite length_ratios_from. simpl in Hrows. lia. }
  unfold pd.std, pd.nanstd.
  rewrite values_combine.
  - rewrite (nanvar_finite _ Hn).
    rewrite fsqrt_finite by (apply sample_var_nonneg; exact Hn).
    reflexivity.
  - rewrite length_map.
    destruct ps as [|p0 ps]; [simpl in Hrows; lia|].
    cbn [exact_returns]. rewrite length_ratios_from.
    destruct (pd.df_index df); simpl in *; lia.
Qed.

Lemma volatility_formula_finite_witness :
  pd.df_columns df_scenario !! adj_close = Some (map Fin scenario_prices)
  /\ length (pd.df_index df_scenario) = length scenario_prices
  /\ (3 <= length scenario_prices)%nat
  /\ Forall (fun p => p <> 0) scenario_prices
  /\ calculate_volatility pd.pad df_scenario
     = Ok (Fin (sqrt (sample_var (exact_returns scenario_prices))
                * sqrt 252 * 100)).
Proof.
  assert (Hnz : Forall (fun p => p <> 0) scenario_prices).
  { unfold scenario_prices. repeat constructor; lra. }
  split; [reflexivity|]. split; [reflexivity|].
  split; [simpl; lia|]. split; [exact Hnz|].
  apply (volatility_formula_finite pd.pad df_scenario scenario_prices).
  - reflexivity.
  - reflexivity.
  - simpl. lia.
  - exact Hnz.
Defined.

(** ** Too few returns *)

Lemma length_smap (f : float -> float) (s : Series) :
  length (pd.smap f s) = length s.
Proof. unfold pd.smap. apply length_map. Qed.

Lemma std_short (s : Series) : (length s <= 1)%nat -> pd.std s = NaN.
Proof.
  intros H. unfold pd.std, pd.nanstd.
  rewrite nanvar_short by (rewrite length_values; exact H). reflexivity.
Qed.

(** X4.  When the return series of the table has fewer than two rows
    (two table rows, or more rows with undefined returns among them) the
    Sharpe ratio, the Sortino ratio and the volatility are NaN. *)
Theorem single_return_gives_nan
    (fm : pd.fill_method) (df : pd.DataFrame) (col : list float) (rf : R)
    (Hcol : pd.df_columns df !! adj_close = Some col)
    (Hshort : (length (column_returns fm df col) <= 1)%nat) :
  calculate_sharpe_ratio fm df rf = Ok NaN
  /\ calculate_sortino_ratio fm df rf = Ok NaN
  /\ calculate_volatility fm df = Ok NaN.
Proof.
  split; [|split].
  - rewrite (sharpe_formula fm df col Hcol).
    rewrite (std_short (excess_of rf _))
      by (unfold excess_of; rewrite length_smap; exact Hshort).
    rewrite fdiv_nan_r. reflexivity.
  - rewrite (sortino_formula fm df col Hcol).
    rewrite (std_short (pd.mask_rows _ _)).
    + rewrite fdiv_nan_r. reflexivity.
    + unfold pd.mask_rows.
      pose proof (filter_length_le (fun p => flt (snd p) (Fin 0))
                    (excess_of rf (column_returns fm df col))) as Hf.
      unfold excess_of in *. rewrite length_smap in Hf. lia.
  - rewrite (volatility_formula fm df col Hcol).
    rewrite (std_short _ Hshort). reflexivity.
Qed.

Lemma single_return_gives_nan_witness :
  pd.df_columns df_two_rows !! adj_close = Some [Fin 100; Fin 110]
  /\ (length (column_returns pd.no_fill df_two_rows [Fin 100; Fin 110])
      <= 1)%nat
  /\ calculate_volatility pd.no_fill df_two_rows = Ok NaN.
Proof.
  assert (Hlen : (length (column_returns pd.no_fill df_two_rows
                            [Fin 100; Fin 110]) <= 1)%nat).
  { pose proof (length_returns_of pd.no_fill
                  (combine (pd.df_index df_two_rows) [Fin 100; Fin 110])).
    unfold column_returns. simpl in *. lia. }
  split; [reflexivity|]. split; [exact Hlen|].
  apply (single_return_gives_nan pd.no_fill df_two_rows
           [Fin 100; Fin 110] 0 eq_refl Hlen).
Defined.

(** ** Sortino ratio *)

(** X5.  With fewer than two negative excess returns the Sortino ratio is
    NaN: the downside deviation of a single observation is undefined. *)
Theorem sortino_needs_two_downside_rows
    (fm : pd.fill_method) (df : pd.DataFrame) (col : list float) (rf : R)
    (Hcol : pd.df_columns df !! adj_close = Some col)
    (Hfew : (length (pd.mask_rows (fun v => flt v (Fin 0))
                       (excess_of rf (column_returns fm df col)))
             <= 1)%nat) :
  calculate_sortino_ratio fm df rf = Ok NaN.
Proof.
  rewrite (sortino_formula fm df col Hcol).
  rewrite (std_short _ Hfew), fdiv_nan_r. reflexivity.
Qed.

Lemma mask_rows_all (keep : float -> bool) (s : Series) :
  Forall (fun v => keep v = true) (pd.values s) -> pd.mask_rows keep s = s.
Proof.
  unfold pd.mask_rows, pd.values.
  induction s as [|[i v] s IH]; intros H; [reflexivity|].
  inversion H as [|? ? Hv Hrest]; subst. simpl in Hv. simpl.
  rewrite Hv. f_equal. apply IH. exact Hrest.
Qed.

(** X6.  When every excess return is negative the downside series is the
    whole excess series and the Sortino ratio equals the Sharpe ratio. *)
Theorem sortino_is_sharpe_when_all_negative
    (fm : pd.fill_method) (df : pd.DataFrame) (col : list float) (rf : R)
    (Hcol : pd.df_columns df !! adj_close = Some col)
    (Hneg : Forall (fun v => flt v (Fin 0) = true)
                   (pd.values (excess_of rf (column_returns fm df col)))) :
  calculate_sortino_ratio fm df rf = calculate_sharpe_ratio fm df rf.
Proof.
  rewrite (sortino_formula fm df col Hcol), (sharpe_formula fm df col Hcol).
  rewrite (mask_rows_all _ _ Hneg). reflexivity.
Qed.

Ltac decide_Rlt :=
  repeat match goal with
         | |- context [Rlt_dec ?a ?b] => destruct (Rlt_dec a b); try lra
         end.

Lemma sortino_needs_two_downside_rows_witness :
  pd.df_columns df_scenario !! adj_close = Some (map Fin scenario_prices)
  /\ (length (pd.mask_rows (fun v => flt v (Fin 0))
                (excess_of (1 / 100)
                   (column_returns pd.no_fill df_scenario
                      (map Fin scenario_prices))))
      <= 1)%nat
  /\ calculate_sortino_ratio pd.no_fill df_scenario (1 / 100) = Ok NaN.
Proof.
  assert (Hfew : (length (pd.mask_rows (fun v => flt v (Fin 0))
                            (excess_of (1 / 100)
                               (column_returns pd.no_fill df_scenario
                                  (map Fin scenario_prices))))
                  <= 1)%nat).
  { rewrite scenario_returns.
    unfold scenario_prices, excess_of, pd.mask_rows.
    cbn [exact_returns ratios_from map combine pd.smap fst snd
         fsub fopp fadd List.filter flt].
    decide_Rlt. simpl. lia. }
  split; [reflexivity|]. split; [exact Hfew|].
  exact (sortino_needs_two_downside_rows pd.no_fill df_scenario
           (map Fin scenario_prices) (1 / 100) eq_refl Hfew).
Defined.

Lemma falling_returns :
  column_returns pd.no_fill df_falling (map Fin falling_prices)
  = combine [2; 3]%Z (map Fin (exact_returns falling_prices)).
Proof.
  unfold column_returns.
  change (pd.df_index df_falling) with [1; 2; 3]%Z.
  rewrite (returns_of_finite pd.no_fill [1; 2; 3]%Z falling_prices)
    by (try reflexivity; unfold falling_prices; repeat constructor; lra).
  reflexivity.
Qed.

Lemma sortino_is_sharpe_when_all_negative_witness :
  pd.df_columns df_falling !! adj_close = Some (map Fin falling_prices)
  /\ calculate_sortino_ratio pd.no_fill df_falling 0
     = calculate_sharpe_ratio pd.no_fill df_falling 0.
Proof.
  split; [reflexivity|].
  apply (sortino_is_sharpe_when_all_negative pd.no_fill df_falling
           (map Fin falling_prices) 0 eq_refl).
  rewrite falling_returns.
  unfold falling_prices, excess_of.
  cbn [exact_returns ratios_from map combine pd.smap pd.values fst snd
       fsub fopp fadd flt].
  constructor; [unfold flt; decide_Rlt; reflexivity|].
  constructor; [unfold flt; decide_Rlt; reflexivity|].
  constructor.
Defined.

(** ** Sharpe ratio *)

Lemma Rsum_shift (c : R) (xs : list R) :
  Rsum (map (fun x => x + c) xs) = Rsum xs + INR (length xs) * c.
Proof.
  induction xs as [|x xs IH].
  - simpl. rewrite Rsum_nil. lra.
  - cbn [map]. rewrite !Rsum_cons, IH.
    change (length (x :: xs)) with (S (length xs)). rewrite S_INR. lra.
Qed.

Lemma Rmean_shift (c : R) (xs : list R) :
  (1 <= length xs)%nat ->
  Rmean (map (fun x => x + c) xs) = Rmean xs + c.
Proof.
  intros Hn. unfold Rmean. rewrite Rsum_shift, length_map.
  pose proof (INR_pos_length xs Hn). field. lra.
Qed.

Lemma deviations_shift (c m : R) (xs ys : list R) :
  map (fun p => (fst p - (m + c)) * (snd p - (m + c)))
      (combine (map (fun x => x + c) xs) (map (fun x => x + c) ys))
  = map (fun p => (fst p - m) * (snd p - m)) (combine xs ys).
Proof.
  revert ys. induction xs as [|x xs IH]; intros [|y ys]; simpl;
    try reflexivity.
  f_equal; [lra|apply IH].
Qed.

(** Subtracting a constant from every value leaves the variance as it is. *)
Lemma sample_var_shift (c : R) (xs : list R) :
  (1 <= length xs)%nat ->
  sample_var (map (fun x => x + c) xs) = sample_var xs.
Proof.
  intros Hn. unfold sample_var, co_dev.
  rewrite (Rmean_shift c xs Hn), deviations_shift, length_map. reflexivity.
Qed.

Lemma excess_values_finite (rf : R) (s : Series) (xs : list R) :
  pd.values s = map Fin xs ->
  pd.values (excess_of rf s) = map Fin (map (fun x => x + - (rf / 252)) xs).
Proof.
  intros Hs. unfold excess_of. rewrite values_smap, Hs, !map_map.
  reflexivity.
Qed.

(** X7.  When the variance [v] of the return series is a finite non-zero
    number, the Sharpe ratio is sqrt(252) * (mean return - rf / 252)
    / sqrt(v): the risk-free rate moves the numerator only, the
    denominator is the standard deviation of the returns themselves. *)
Theorem sharpe_formula_finite
    (fm : pd.fill_method) (df : pd.DataFrame) (col : list float) (v rf : R)
    (Hcol : pd.df_columns df !! adj_close = Some col)
    (Hvar : pd.var (column_returns fm df col) = Fin v)
    (Hv : v <> 0) :
  exists xs,
    pd.values (column_returns fm df col) = map Fin xs
    /\ calculate_sharpe_ratio fm df rf
       = Ok (Fin (sqrt 252 * (Rmean xs - rf / 252) / sqrt v)).
Proof.
  destruct (returns_finite_variance fm df col v Hvar)
    as (xs & Hxs & Hn & Hs).
  exists xs. split; [exact Hxs|].
  rewrite (sharpe_formula fm df col Hcol).
  unfold pd.mean, pd.std, pd.nanstd.
  rewrite (excess_values_finite rf _ xs Hxs).
  rewrite nanmean_finite by (rewrite length_map; lia).
  rewrite nanvar_finite by (rewrite length_map; exact Hn).
  rewrite Rmean_shift, sample_var_shift by lia. rewrite Hs.
  pose proof (sample_var_nonneg xs Hn) as Hpos. rewrite Hs in Hpos.
  assert (Hsq : 0 < sqrt v) by (apply sqrt_lt_R0; lra).
  rewrite fsqrt_finite by exact Hpos.
  cbn [fmul]. rewrite fdiv_finite by lra. reflexivity.
Qed.

Lemma sharpe_formula_finite_witness :
  pd.df_columns df_scenario !! adj_close = Some (map Fin scenario_prices)
  /\ 1 / 75 <> 0
  /\ exists xs,
       pd.values (column_returns pd.no_fill df_scenario
                    (map Fin scenario_prices)) = map Fin xs
       /\ calculate_sharpe_ratio pd.no_fill df_scenario (1 / 100)
          = Ok (Fin (sqrt 252 * (Rmean xs - 1 / 100 / 252)
                     / sqrt (1 / 75))).
Proof.
  split; [reflexivity|]. split; [lra|].
  apply (sharpe_formula_finite pd.no_fill df_scenario
           (map Fin scenario_prices) (1 / 75) (1 / 100)).
  - reflexivity.
  - exact scenario_variance.
  - lra.
Defined.

(** ** Maximum drawdown, continued *)

(** The maximum drawdown of finite positive prices is 100 times a member
    of the exact drawdown series, so it has every property all the
    drawdowns have. *)
Lemma max_drawdown_of_finite (P : R -> Prop) (fm : pd.fill_method)
    (df : pd.DataFrame) (p0 : R) (ps : list R) :
  pd.df_columns df !! adj_close = Some (map Fin (p0 :: ps)) ->
  length (pd.df_index df) = length (p0 :: ps) ->
  (1 <= length ps)%nat ->
  Forall (fun p => 0 < p) (p0 :: ps) ->
  Forall P (exact_drawdowns (ratios_from p0 ps)) ->
  exists m, calculate_max_drawdown fm df = Ok (Fin (m * 100)) /\ P m.
Proof.
  intros Hcol Hlen Hrows Hpos HP.
  pose proof (positive_nonzero _ Hpos) as Hnz.
  rewrite (max_drawdown_formula fm df _ Hcol).
  unfold column_returns.
  rewrite (returns_of_finite fm (pd.df_index df) _ Hlen Hnz).
  cbn [exact_returns].
  set (rs := ratios_from p0 ps) in *.
  set (returns := combine (tl (pd.df_index df)) (map Fin rs)).
  assert (Hlrs : length rs = length ps) by apply length_ratios_from.
  assert (Hvalues : pd.values returns = map Fin rs).
  { apply values_combine. rewrite length_map, Hlrs.
    destruct (pd.df_index df); simpl in *; lia. }
  pose proof (factors_positive p0 ps Hpos) as Hfs. fold rs in Hfs.
  pose proof (drawdowns_nonpositive _ Hfs) as Hbelow.
  assert (Hpeak : Forall (fun p => p <> 0)
                    (Raccumulate Rmax
                       (Raccumulate Rmult (map (fun r => 1 + r) rs)))).
  { apply (Forall2_right _ _ _ _ Hbelow). intros a b [Ha Hb]. lra. }
  unfold pd.min.
  rewrite (drawdown_values_finite returns rs Hvalues Hpeak).
  destruct (nanmin_finite P (exact_drawdowns rs)) as (m & Hm & HPm).
  - intros E. apply (f_equal (@length R)) in E.
    unfold exact_drawdowns in E.
    rewrite length_map, length_combine, !length_Raccumulate, length_map
      in E.
    simpl in E. lia.
  - exact HP.
  - exists m. rewrite Hm. split; [reflexivity|exact HPm].
Qed.

(** X8.  For a table of at least two rows with finite, strictly positive
    prices the maximum drawdown is a finite percentage strictly above
    -100 and at most 0. *)
Theorem max_drawdown_above_minus_100
    (fm : pd.fill_method) (df : pd.DataFrame) (ps : list R)
    (Hcol : pd.df_columns df !! adj_close = Some (map Fin ps))
    (Hlen : length (pd.df_index df) = length ps)
    (Hrows : (2 <= length ps)%nat)
    (Hpos : Forall (fun p => 0 < p) ps) :
  exists m,
    calculate_max_drawdown fm df = Ok (Fin m) /\ -100 < m <= 0.
Proof.
  destruct ps as [|p0 ps]; [simpl in Hrows; lia|].
  destruct (max_drawdown_of_finite (fun d => -1 < d <= 0) fm df p0 ps)
    as (m & Hm & Hb); try assumption.
  - simpl in Hrows. lia.
  - unfold exact_drawdowns.
    apply (Forall2_map_combine (fun c p => 0 < c <= p)).
    + apply drawdowns_nonpositive. exact (factors_positive p0 ps Hpos).
    + intros c p [Hc Hcp]. cbn [fst snd].
      assert (Hp : 0 < p) by lra.
      split.
      * apply (Rmult_lt_reg_r p); [exact Hp|].
        replace ((c - p) / p * p) with (c - p) by (field; lra). lra.
      * apply (Rmult_le_reg_r p); [exact Hp|].
        replace ((c - p) / p * p) with (c - p) by (field; lra). lra.
  - exists (m * 100). split; [exact Hm|lra].
Qed.

Lemma max_drawdown_above_minus_100_witness :
  pd.df_columns df_dip !! adj_close = Some (map Fin dip_prices)
  /\ length (pd.df_index df_dip) = length dip_prices
  /\ (2 <= length dip_prices)%nat
  /\ Forall (fun p => 0 < p) dip_prices
  /\ exists m,
       calculate_max_drawdown pd.no_fill df_dip = Ok (Fin m)
       /\ -100 < m <= 0.
Proof.
  assert (Hpos : Forall (fun p => 0 < p) dip_prices).
  { unfold dip_prices. repeat constructor; lra. }
  split; [reflexivity|]. split; [reflexivity|].
  split; [simpl; lia|]. split; [exact Hpos|].
  apply (max_drawdown_above_minus_100 pd.no_fill df_dip dip_prices).
  - reflexivity.
  - reflexivity.
  - simpl. lia.
  - exact Hpos.
Defined.

Lemma drawdowns_of_own_peak (cs : list R) :
  Forall (fun d => d = 0)
         (map (fun p => (fst p - snd p) / snd p) (combine cs cs)).
Proof.
  induction cs as [|c cs IH]; simpl; constructor.
  - unfold Rdiv, Rminus. rewrite Rplus_opp_r. apply Rmult_0_l.
  - exact IH.
Qed.

(** X9.  The first price never counts as a peak: the running product
    starts at the second row.  If the prices from the second row on never
    decrease, the maximum drawdown is 0 whatever the first price was, also
    when the price fell from the first row to the second. *)
Theorem max_drawdown_ignores_first_price
    (fm : pd.fill_method) (df : pd.DataFrame) (p0 : R) (ps : list R)
    (Hcol : pd.df_columns df !! adj_close = Some (map Fin (p0 :: ps)))
    (Hlen : length (pd.df_index df) = length (p0 :: ps))
    (Hrows : (1 <= length ps)%nat)
    (Hpos : Forall (fun p => 0 < p) (p0 :: ps))
    (Hsorted : Sorted Rle ps) :
  calculate_max_drawdown fm df = Ok (Fin 0).
Proof.
  destruct (max_drawdown_of_finite (fun d => d = 0) fm df p0 ps)
    as (m & Hm & Hz); try assumption.
  - destruct ps as [|p1 ps]; [simpl in Hrows; lia|].
    inversion Hpos as [|? ? Hp0 Hrest]; subst.
    inversion Hrest as [|? ? Hp1 _]; subst.
    unfold exact_drawdowns. cbn [ratios_from map Raccumulate].
    assert (Hf0 : 0 < 1 + (p1 / p0 - 1)).
    { replace (1 + (p1 / p0 - 1)) with (p1 / p0) by lra.
      apply Rdiv_lt_0_compat; assumption. }
    rewrite (cumulative_is_peak _ _ Hf0
               (factors_at_least_one p1 ps Hrest Hsorted)).
    apply (drawdowns_of_own_peak (_ :: _)).
  - rewrite Hm, Hz. do 2 f_equal. lra.
Qed.

Lemma max_drawdown_ignores_first_price_witness :
  pd.df_columns df_dip !! adj_close = Some (map Fin dip_prices)
  /\ Forall (fun p => 0 < p) dip_prices
  /\ Sorted Rle [50; 60]
  /\ calculate_max_drawdown pd.no_fill df_dip = Ok (Fin 0).
Proof.
  assert (Hpos : Forall (fun p => 0 < p) dip_prices).
  { unfold dip_prices. repeat constructor; lra. }
  assert (Hsorted : Sorted Rle [50; 60]).
  { repeat constructor. lra. }
  split; [reflexivity|]. split; [exact Hpos|]. split; [exact Hsorted|].
  apply (max_drawdown_ignores_first_price pd.no_fill df_dip 100 [50; 60]).
  - reflexivity.
  - reflexivity.
  - simpl. lia.
  - exact Hpos.
  - exact Hsorted.
Defined.

(** ** Correlation, continued *)

Lemma pearson_self (xs : list R) : 0 < co_dev xs xs -> pearson xs xs = 1.
Proof.
  intros Hc. unfold pearson. rewrite sqrt_sqrt by lra. field. lra.
Qed.

(** X10.  When the variance of the return series is a finite non-zero
    number, its correlation with itself is 1. *)
Theorem correlation_of_itself
    (fm : pd.fill_method) (df : pd.DataFrame) (col : list float) (v : R)
    (Hcol : pd.df_columns df !! adj_close = Some col)
    (Hvar : pd.var (column_returns fm df col) = Fin v)
    (Hv : v <> 0) :
  calculate_correlation fm df (column_returns fm df col) = Ok (Fin 1).
Proof.
  destruct (returns_finite_variance fm df col v Hvar)
    as (xs & Hxs & Hn & Hs).
  rewrite (correlation_formula fm df col Hcol).
  assert (Hsv : sample_var xs <> 0) by (rewrite Hs; exact Hv).
  destruct (corr_finite _ _ xs xs eq_refl Hxs Hxs Hn Hsv Hsv) as [Hc _].
  rewrite Hc. cbn [bind]. do 2 f_equal.
  apply pearson_self.
  destruct (co_dev_cauchy_schwarz xs xs eq_refl) as ([H|E] & _);
    [exact H|].
  exfalso. apply Hsv. unfold sample_var. rewrite <- E.
  unfold Rdiv. apply Rmult_0_l.
Qed.

Lemma correlation_of_itself_witness :
  pd.df_columns df_scenario !! adj_close = Some (map Fin scenario_prices)
  /\ 1 / 75 <> 0
  /\ calculate_correlation pd.no_fill df_scenario
       (column_returns pd.no_fill df_scenario (map Fin scenario_prices))
     = Ok (Fin 1).
Proof.
  split; [reflexivity|]. split; [lra|].
  apply (correlation_of_itself pd.no_fill df_scenario
           (map Fin scenario_prices) (1 / 75)).
  - reflexivity.
  - exact scenario_variance.
  - lra.
Defined.

Lemma no_common_label_no_pairs (a b : Series) :
  (forall i, In i (pd.index a) -> ~ In i (pd.index b)) ->
  pd.align_inner a b = [].
Proof.
  intros Hdisj. unfold pd.align_inner.
  destruct (decide (pd.index a = pd.index b)) as [E|_].
  - destruct a as [|[i x] a]; [reflexivity|].
    exfalso. apply (Hdisj i); [left; reflexivity|].
    rewrite <- E. left. reflexivity.
  - induction a as [|[i x] a IH]; [reflexivity|].
    cbn [flat_map fst snd].
    assert (Hnone : List.filter (fun q => Z.eqb (fst q) i) b = []).
    { assert (Hi : ~ In i (pd.index b))
        by (apply Hdisj; left; reflexivity).
      clear -Hi. induction b as [|[j y] b IHb]; [reflexivity|].
      cbn [List.filter fst]. destruct (Z.eqb_spec j i) as [->|_].
      - exfalso. apply Hi. left. reflexivity.
      - apply IHb. intros Hin. apply Hi. right. exact Hin. }
    rewrite Hnone. cbn [map app]. apply IH.
    intros k Hk. apply Hdisj. right. exact Hk.
Qed.

(** X11.  A benchmark that shares no date with the return series gives the
    correlation NaN, whatever its length and values: the rows are paired
    by label, and no pair is left. *)
Theorem correlation_without_common_dates
    (fm : pd.fill_method) (df : pd.DataFrame) (col : list float)
    (b : Series)
    (Hcol : pd.df_columns df !! adj_close = Some col)
    (Hdisj : forall i, In i (pd.index (column_returns fm df col)) ->
                       ~ In i (pd.index b)) :
  calculate_correlation fm df b = Ok NaN.
Proof.
  rewrite (correlation_formula fm df col Hcol).
  unfold pd.corr. rewrite (no_common_label_no_pairs _ b Hdisj).
  reflexivity.
Qed.

Lemma correlation_without_common_dates_witness :
  pd.df_columns df_scenario !! adj_close = Some (map Fin scenario_prices)
  /\ calculate_correlation pd.no_fill df_scenario shifted_benchmark
     = Ok NaN.
Proof.
  split; [reflexivity|].
  apply (correlation_without_common_dates pd.no_fill df_scenario
           (map Fin scenario_prices) shifted_benchmark eq_refl).
  rewrite scenario_returns. intros i Hi Hb.
  simpl in Hi, Hb.
  destruct Hi as [<-|[<-|[<-|[]]]];
    destruct Hb as [Hb|[Hb|[Hb|[]]]]; discriminate Hb.
Defined.

(** ** Beta, continued *)

(** X12.  For finite returns and a finite benchmark with as many rows and
    a non-zero sample variance, beta is the sample covariance of the two
    value lists, taken row by row, over the sample variance of the
    benchmark; the labels of the benchmark play no part. *)
Theorem beta_is_covariance_over_variance
    (fm : pd.fill_method) (df : pd.DataFrame) (col : list float)
    (b : Series) (xs ys : list R)
    (Hcol : pd.df_columns df !! adj_close = Some col)
    (Hxs : pd.values (column_returns fm df col) = map Fin xs)
    (Hys : pd.values b = map Fin ys)
    (Hlen : length xs = length ys)
    (Hn : (2 <= length xs)%nat)
    (Hvar : sample_var ys <> 0) :
  calculate_beta fm df b = Ok (Fin (sample_cov xs ys / sample_var ys)).
Proof.
  rewrite (beta_formula fm df col Hcol), Hxs, Hys.
  rewrite (cov_finite xs ys Hn Hlen). cbn [bind fst snd].
  unfold pd.var. rewrite Hys, nanvar_finite by lia.
  rewrite fdiv_finite by exact Hvar. reflexivity.
Qed.

Lemma benchmark_sample_var : sample_var benchmark_values = 1 / 100.
Proof.
  unfold sample_var, co_dev, Rmean, benchmark_values.
  cbn [combine map fst snd length].
  rewrite !Rsum_cons, !Rsum_nil. simpl INR. field.
Qed.

Lemma beta_is_covariance_over_variance_witness :
  pd.df_columns df_scenario !! adj_close = Some (map Fin scenario_prices)
  /\ length (exact_returns scenario_prices) = length benchmark_values
  /\ sample_var benchmark_values <> 0
  /\ calculate_beta pd.no_fill df_scenario shifted_benchmark
     = Ok (Fin (sample_cov (exact_returns scenario_prices) benchmark_values
                / sample_var benchmark_values)).
Proof.
  assert (Hvar : sample_var benchmark_values <> 0)
    by (rewrite benchmark_sample_var; lra).
  split; [reflexivity|]. split; [reflexivity|]. split; [exact Hvar|].
  apply (beta_is_covariance_over_variance pd.no_fill df_scenario
           (map Fin scenario_prices) shifted_benchmark).
  - reflexivity.
  - rewrite scenario_returns. apply values_combine. reflexivity.
  - apply values_combine. reflexivity.
  - reflexivity.
  - simpl. lia.
  - exact Hvar.
Defined.

(** ** The aggregate call, continued *)

(** X13.  The aggregate call returns a value exactly when the table has
    the column and the benchmark has as many rows as the return series;
    the result then has seven entries.  Without the column it raises
    [KeyError]; with a benchmark of another length it raises numpy's
    [ValueError], although four of the seven metrics do not use the
    benchmark: no partial result is returned. *)
Theorem calculate_metrics_domain
    (fm : pd.fill_method) (df : pd.DataFrame) (b : Series) (rf : R) :
  match pd.df_columns df !! adj_close with
  | None => calculate_metrics fm df b rf = Raise (KeyError adj_close)
  | Some col =>
      if (length b =? length (column_returns fm df col))%nat
      then exists m, calculate_metrics fm df b rf = Ok m
                     /\ length m = 7%nat
      else calculate_metrics fm df b rf
           = Raise (ValueError "array dimensions must match exactly")
  end.
Proof.
  destruct (pd.df_columns df !! adj_close) as [col|] eqn:Hcol.
  - unfold calculate_metrics.
    rewrite (sharpe_formula fm df col Hcol),
      (sortino_formula fm df col Hcol),
      (max_drawdown_formula fm df col Hcol),
      (volatility_formula fm df col Hcol),
      (alpha_formula fm df col Hcol),
      (correlation_formula fm df col Hcol),
      (beta_formula fm df col Hcol).
    cbn [bind].
    destruct (Nat.eqb_spec (length b) (length (column_returns fm df col)))
      as [Heq|Hne].
    + rewrite cov_same_length
        by (rewrite !length_values; symmetry; exact Heq).
      cbn [bind].
      pose proof (corr_returns (column_returns fm df col) b) as Hc.
      destruct (pd.corr _ b) as [c|]; [|contradiction].
      cbn [bind]. eexists. split; reflexivity.
    + rewrite cov_length_mismatch
        by (rewrite !length_values; intros E; apply Hne; symmetry;
            exact E).
      reflexivity.
  - unfold calculate_metrics, calculate_sharpe_ratio.
    pose proof (getitem_missing df adj_close Hcol) as Hget.
    unfold adj_close in Hget. rewrite Hget. reflexivity.
Qed.

(** ** Tables that give the same results *)

Lemma same_returns_same_results (fm fm' : pd.fill_method)
    (df df' : pd.DataFrame) (col col' : list float) :
  pd.df_columns df !! adj_close = Some col ->
  pd.df_columns df' !! adj_close = Some col' ->
  column_returns fm df col = column_returns fm' df' col' ->
  same_results fm fm' df df'.
Proof.
  intros Hcol Hcol' Hret.
  assert (Hbeta : forall b, calculate_beta fm df b
                            = calculate_beta fm' df' b).
  { intros b. rewrite (beta_formula fm df col Hcol),
      (beta_formula fm' df' col' Hcol'), Hret. reflexivity. }
  assert (Halpha : forall b rf, calculate_alpha fm df b rf
                                = calculate_alpha fm' df' b rf).
  { intros b rf. rewrite (alpha_formula fm df col Hcol),
      (alpha_formula fm' df' col' Hcol'), Hret, Hbeta. reflexivity. }
  split.
  - rewrite (get_returns_present fm df col Hcol),
      (get_returns_present fm' df' col' Hcol'), Hret. reflexivity.
  - intros b rf.
    assert (Hsharpe : calculate_sharpe_ratio fm df rf
                      = calculate_sharpe_ratio fm' df' rf).
    { rewrite (sharpe_formula fm df col Hcol),
        (sharpe_formula fm' df' col' Hcol'), Hret. reflexivity. }
    assert (Hsortino : calculate_sortino_ratio fm df rf
                       = calculate_sortino_ratio fm' df' rf).
    { rewrite (sortino_formula fm df col Hcol),
        (sortino_formula fm' df' col' Hcol'), Hret. reflexivity. }
    assert (Hmdd : calculate_max_drawdown fm df
                   = calculate_max_drawdown fm' df').
    { rewrite (max_drawdown_formula fm df col Hcol),
        (max_drawdown_formula fm' df' col' Hcol'), Hret. reflexivity. }
    assert (Hvol : calculate_volatility fm df
                   = calculate_volatility fm' df').
    { rewrite (volatility_formula fm df col Hcol),
        (volatility_formula fm' df' col' Hcol'), Hret. reflexivity. }
    assert (Hcorr : calculate_correlation fm df b
                    = calculate_correlation fm' df' b).
    { rewrite (correlation_formula fm df col Hcol),
        (correlation_formula fm' df' col' Hcol'), Hret. reflexivity. }
    repeat (split; [assumption || apply Hbeta || apply Halpha|]).
    unfold calculate_metrics.
    rewrite Hsharpe, Hsortino, Hmdd, Hvol, Hbeta, Halpha, Hcorr.
    reflexivity.
Qed.

Lemma ffill_from_notna (last : float) (a : list float) :
  Forall (fun v => isna v = false) a -> pd.ffill_from last a = a.
Proof.
  intros H. revert last. induction H as [|x a Hx _ IH]; intros last;
    simpl; [reflexivity|].
  rewrite Hx. f_equal. apply IH.
Qed.

Lemma values_combine_Forall (P : float -> Prop) (idx : list label)
    (col : list float) :
  Forall P col -> Forall P (pd.values (combine idx col)).
Proof.
  intros H. revert idx. unfold pd.values.
  induction H as [|x col Hx _ IH]; intros [|i idx]; simpl;
    constructor; [exact Hx|apply IH].
Qed.

(** X14.  On a column without missing values the two fill policies of
    [pct_change()] coincide: every entry point gives the same result under
    either. *)
Theorem fill_policy_irrelevant_without_gaps
    (df : pd.DataFrame) (col : list float)
    (Hcol : pd.df_columns df !! adj_close = Some col)
    (Hna : Forall (fun v => isna v = false) col) :
  same_results pd.pad pd.no_fill df df.
Proof.
  apply (same_returns_same_results _ _ df df col col Hcol Hcol).
  unfold column_returns, returns_of, pd.pct_change, pd.ffill.
  rewrite ffill_from_notna by (apply values_combine_Forall; exact Hna).
  reflexivity.
Qed.

Lemma fill_policy_irrelevant_without_gaps_witness :
  pd.df_columns df_scenario !! adj_close = Some (map Fin scenario_prices)
  /\ Forall (fun v => isna v = false) (map Fin scenario_prices)
  /\ same_results pd.pad pd.no_fill df_scenario df_scenario.
Proof.
  assert (Hna : Forall (fun v => isna v = false)
                       (map Fin scenario_prices)).
  { unfold scenario_prices. repeat constructor. }
  split; [reflexivity|]. split; [exact Hna|].
  exact (fill_policy_irrelevant_without_gaps df_scenario
           (map Fin scenario_prices) eq_refl Hna).
Defined.

(** * Plotting *)

Lemma has_column_false (df : pd.DataFrame) (name : string) :
  pd.has_column df name = false -> pd.df_columns df !! name = None.
Proof.
  unfold pd.has_column. destruct (pd.df_columns df !! name);
    [discriminate|reflexivity].
Qed.

Lemma has_column_true (df : pd.DataFrame) (name : string) :
  pd.has_column df name = true ->
  pd.getitem df name = Ok (column_series df name).
Proof.
  unfold pd.has_column, pd.getitem, column_series.
  destruct (pd.df_columns df !! name); [reflexivity|discriminate].
Qed.

Lemma forallb_missing (df : pd.DataFrame) (columns : list string)
    (c : string) :
  In c columns -> pd.has_column df c = false ->
  forallb (pd.has_column df) columns = false.
Proof.
  intros Hin Hc. induction columns as [|d columns IH]; [destruct Hin|].
  simpl. destruct Hin as [->|Hin].
  - rewrite Hc. reflexivity.
  - rewrite (IH Hin). apply andb_false_r.
Qed.

(** X16.  The four plotting functions that take column names check them
    first: when a requested column is missing they raise [ValueError] and
    no drawing call has been made. *)
Theorem plots_validate_before_drawing
    (df : pd.DataFrame) (log : list plt.call) (title xlabel ylabel : string) :
  (forall column, pd.has_column df column = false ->
     plot_histogram df column title xlabel ylabel log
     = (Raise (ValueError
                 (String.append "Column '"
                    (String.append column "' not found in DataFrame."))),
        log)
     /\ plot_boxplot df column title xlabel ylabel log
        = (Raise (ValueError
                    (String.append "Column '"
                       (String.append column
                          "' not found in DataFrame."))),
           log))
  /\ (forall columns c, In c columns -> pd.has_column df c = false ->
        plot_time_series df columns title xlabel ylabel log
        = (Raise (ValueError "One or more columns not found in DataFrame."),
           log))
  /\ (forall x_column y_column,
        pd.has_column df x_column = false
        \/ pd.has_column df y_column = false ->
        plot_scatter df x_column y_column title xlabel ylabel log
        = (Raise (ValueError "One or both columns not found in DataFrame."),
           log)).
Proof.
  split; [|split].
  - intros column Hc. unfold plot_histogram, plot_boxplot.
    rewrite Hc. split; reflexivity.
  - intros columns c Hin Hc. unfold plot_time_series.
    rewrite (forallb_missing df columns c Hin Hc). reflexivity.
  - intros x_column y_column H. unfold plot_scatter.
    destruct H as [H|H]; rewrite H; cbn [negb orb];
      [|rewrite orb_true_r]; reflexivity.
Qed.

(** X17.  The two plotting functions that read 'Adj Close' without a check
    raise [KeyError] on a table without it; [plot_returns] has drawn
    nothing by then, [plot_price] has already opened its figure. *)
Theorem unchecked_plots_on_missing_column
    (fm : pd.fill_method) (df : pd.DataFrame) (log : list plt.call)
    (title xlabel ylabel : string)
    (Hmissing : pd.df_columns df !! adj_close = None) :
  plot_returns fm df title xlabel ylabel log
  = (Raise (KeyError adj_close), log)
  /\ plot_price df title xlabel ylabel log
     = (Raise (KeyError adj_close), log ++ [plt.figure 14 7]).
Proof.
  pose proof (getitem_missing df adj_close Hmissing) as Hget.
  unfold adj_close in Hget.
  unfold plot_returns, plot_price, then_, lift, draw.
  rewrite Hget. split; reflexivity.
Qed.

Lemma unchecked_plots_on_missing_column_witness :
  pd.df_columns df_no_adj_close !! adj_close = None
  /\ plot_price df_no_adj_close "Stock Price" "Date" "Price" []
     = (Raise (KeyError adj_close), [plt.figure 14 7]).
Proof.
  split; [reflexivity|].
  apply (unchecked_plots_on_missing_column pd.no_fill df_no_adj_close []).
  reflexivity.
Defined.

Lemma for_each_lines (df : pd.DataFrame) (columns : list string)
    (log : list plt.call) :
  forallb (pd.has_column df) columns = true ->
  for_each columns
    (fun col =>
       do data <- lift (pd.getitem df col) ;
       draw (plt.plot (pd.df_index df) data col)) log
  = (Ok tt,
     log ++ map (fun col => plt.plot (pd.df_index df)
                              (column_series df col) col) columns).
Proof.
  revert log. induction columns as [|c columns IH]; intros log Hall.
  - simpl. unfold pure. rewrite app_nil_r. reflexivity.
  - simpl in Hall. apply andb_true_iff in Hall. destruct Hall as [Hc Hrest].
    cbn [for_each map]. unfold then_ at 1. unfold then_ at 1.
    unfold lift at 1. rewrite (has_column_true df c Hc).
    unfold draw at 1. rewrite (IH _ Hrest), <- app_assoc. reflexivity.
Qed.

(** X18.  When all requested columns are there, [plot_time_series] raises
    nothing and draws, after the calls made before it: one figure, one
    line per requested column in the order given, each labelled with its
    column name, then title, axis labels, legend, grid and the window. *)
Theorem plot_time_series_draws_each_column
    (df : pd.DataFrame) (columns : list string) (log : list plt.call)
    (title xlabel ylabel : string)
    (Hall : forallb (pd.has_column df) columns = true) :
  plot_time_series df columns title xlabel ylabel log
  = (Ok tt,
     log ++ [plt.figure 14 7]
         ++ map (fun col => plt.plot (pd.df_index df)
                              (column_series df col) col) columns
         ++ decorations true title xlabel ylabel).
Proof.
  unfold plot_time_series. rewrite Hall. cbn [negb].
  unfold then_ at 1. unfold draw at 1.
  unfold then_ at 1. rewrite (for_each_lines df columns _ Hall).
  unfold then_, draw, decorations. cbn [app].
  rewrite <- !app_assoc. reflexivity.
Qed.

Lemma plot_time_series_draws_each_column_witness :
  forallb (pd.has_column df_open_close) ["Open"; "Adj Close"] = true
  /\ plot_time_series df_open_close ["Open"; "Adj Close"]
       "Time Series Plot" "Date" "Value" []
     = (Ok tt,
        [] ++ [plt.figure 14 7]
           ++ map (fun col => plt.plot (pd.df_index df_open_close)
                                (column_series df_open_close col) col)
                  ["Open"; "Adj Close"]
           ++ decorations true "Time Series Plot" "Date" "Value").
Proof.
  split; [reflexivity|].
  apply (plot_time_series_draws_each_column df_open_close
           ["Open"; "Adj Close"] []).
  reflexivity.
Defined.

(** X19.  Whenever [get_returns] returns a series for the table,
    [plot_returns] raises nothing and draws the histogram (50 bins, with
    density estimate) of exactly that series, between opening the figure
    and the title, axis labels, grid and window; it draws no legend. *)
Theorem plot_returns_draws_get_returns
    (fm : pd.fill_method) (df : pd.DataFrame) (r : Series)
    (log : list plt.call) (title xlabel ylabel : string)
    (Hret : DataLoader.get_returns fm df = Ok r) :
  plot_returns fm df title xlabel ylabel log
  = (Ok tt,
     log ++ [plt.figure 14 7; plt.histplot r 50 true]
         ++ decorations false title xlabel ylabel).
Proof.
  destruct (pd.df_columns df !! adj_close) as [col|] eqn:Hcol.
  - rewrite (get_returns_present fm df col Hcol) in Hret.
    injection Hret as <-.
    unfold plot_returns. rewrite (getitem_adj_close df col Hcol).
    unfold then_, lift, draw, decorations, column_returns, returns_of.
    cbn [app]. rewrite <- !app_assoc. reflexivity.
  - exfalso. unfold DataLoader.get_returns in Hret.
    pose proof (has_column_missing df adj_close Hcol) as Hno.
    unfold adj_close in Hno. rewrite Hno in Hret.
    discriminate Hret.
Qed.

Lemma plot_returns_draws_get_returns_witness :
  DataLoader.get_returns pd.no_fill df_scenario
  = Ok (column_returns pd.no_fill df_scenario (map Fin scenario_prices))
  /\ plot_returns pd.no_fill df_scenario "Daily Returns" "Date" "Returns" []
     = (Ok tt,
        [] ++ [plt.figure 14 7;
               plt.histplot
                 (column_returns pd.no_fill df_scenario
                    (map Fin scenario_prices)) 50 true]
           ++ decorations false "Daily Returns" "Date" "Returns").
Proof.
  assert (Hret : DataLoader.get_returns pd.no_fill df_scenario
                 = Ok (column_returns pd.no_fill df_scenario
                         (map Fin scenario_prices)))
    by (apply get_returns_present; reflexivity).
  split; [exact Hret|].
  exact (plot_returns_draws_get_returns pd.no_fill df_scenario _ []
           "Daily Returns" "Date" "Returns" Hret).
Defined.

(** * Alpha in closed form *)

(** X20.  For finite returns and a finite benchmark with as many rows and
    a non-zero sample variance, alpha is
    252 * (mean return - beta * mean benchmark) - (1 - beta) * rf:
    the daily rate rf / 252 is annualised back to rf, and it drops out
    when beta is 1. *)
Theorem alpha_closed_form
    (fm : pd.fill_method) (df : pd.DataFrame) (col : list float)
    (b : Series) (xs ys : list R) (rf : R)
    (Hcol : pd.df_columns df !! adj_close = Some col)
    (Hxs : pd.values (column_returns fm df col) = map Fin xs)
    (Hys : pd.values b = map Fin ys)
    (Hlen : length xs = length ys)
    (Hn : (2 <= length xs)%nat)
    (Hvar : sample_var ys <> 0) :
  calculate_alpha fm df b rf
  = Ok (Fin (252 * (Rmean xs
                    - sample_cov xs ys / sample_var ys * Rmean ys)
             - (1 - sample_cov xs ys / sample_var ys) * rf)).
Proof.
  rewrite (alpha_formula fm df col Hcol).
  rewrite (beta_formula fm df col Hcol), Hxs, Hys.
  rewrite (cov_finite xs ys Hn Hlen). cbn [bind fst snd].
  unfold pd.var. rewrite Hys, nanvar_finite by lia.
  rewrite fdiv_finite by exact Hvar.
  unfold pd.mean.
  rewrite (excess_values_finite rf _ xs Hxs),
    (excess_values_finite rf _ ys Hys).
  rewrite !nanmean_finite by (rewrite length_map; lia).
  rewrite !Rmean_shift by lia.
  cbn [fmul fsub fopp fadd]. do 2 f_equal. field. exact Hvar.
Qed.

Lemma alpha_closed_form_witness :
  pd.df_columns df_scenario !! adj_close = Some (map Fin scenario_prices)
  /\ length (exact_returns scenario_prices) = length benchmark_values
  /\ sample_var benchmark_values <> 0
  /\ calculate_alpha pd.no_fill df_scenario aligned_benchmark (1 / 100)
     = Ok (Fin (252 * (Rmean (exact_returns scenario_prices)
                       - sample_cov (exact_returns scenario_prices)
                                    benchmark_values
                         / sample_var benchmark_values
                         * Rmean benchmark_values)
                - (1 - sample_cov (exact_returns scenario_prices)
                                  benchmark_values
                       / sample_var benchmark_values) * (1 / 100))).
Proof.
  assert (Hvar : sample_var benchmark_values <> 0)
    by (rewrite benchmark_sample_var; lra).
  split; [reflexivity|]. split; [reflexivity|]. split; [exact Hvar|].
  apply (alpha_closed_form pd.no_fill df_scenario
           (map Fin scenario_prices) aligned_benchmark).
  - reflexivity.
  - rewrite scenario_returns. apply values_combine. reflexivity.
  - apply values_combine. reflexivity.
  - reflexivity.
  - simpl. lia.
  - exact Hvar.
Defined.
